(** * UOB Faculty Appraisal System: the scoring and aggregation pipeline

    A shallow embedding of the three places of the repository that carry
    computational logic:

    - [src/app/api/hod/appraisals/route.ts]: the route maps every appraisal
      to its latest evaluation and normalises the behaviour ratings
      ([Route.normalizedRatings], [Route.appraisalsWithEvaluation]);
    - the HOD table component (the first unnamed source file): the
      eligibility gate [Table.shouldEnableEvaluation], the client side
      completion [Table.appraisalsWithEval] and the CSV export
      [Table.exportCSV];
    - the Dean table component (the second unnamed source file), whose
      [shouldEnableEvaluation] and [exportCSV] are letter for letter those
      of the HOD table, so one embedding serves both;
    - around them: the handler [Route.GET] with its query, [fetchData],
      the filters and the status labels of the tables, the achievements
      PDF ([Achievements]) and the password reset, route and dialog
      ([ResetPassword]).

    JavaScript numbers are IEEE 754 binary64 values: they are modelled by
    Rocq's primitive [float]s, whose operations round to nearest, ties to
    even, exactly as the JavaScript ones do.  JavaScript strings are
    modelled by [string]; a character outside ASCII is thought of as its
    UTF-8 bytes, all of which are above 127, which is all that strict
    equality and the five ASCII-only regular expressions can observe. *)

From Stdlib Require Import ZArith List String Ascii Bool Lia.
From Stdlib Require Import PrimFloat SpecFloat FloatOps.
From Stdlib Require Import DecimalString DecimalZ DecimalN DecimalPos.
Import ListNotations.

Local Open Scope string_scope.
Local Open Scope list_scope.
Local Open Scope Z_scope.

(* ================================================================== *)
(** ** The JavaScript primitives the code relies on *)

Module JS.

(** [a ?? d]: the right operand replaces [null] and [undefined] only. *)
Definition nullish {A : Type} (a : option A) (d : A) : A :=
  match a with
  | Some v => v
  | None => d
  end.

(** [o?.field]: [undefined] when [o] is [null] or [undefined]. *)
Definition optchain {A B : Type} (o : option A) (field : A -> B) : option B :=
  match o with
  | Some v => Some (field v)
  | None => None
  end.

(** [o?.field] for a field that may itself be absent. *)
Definition optchain_opt {A B : Type} (o : option A) (field : A -> option B)
  : option B :=
  match o with
  | Some v => field v
  | None => None
  end.

(** *** Regular expressions made of literal characters, with the [i] flag *)

(** Canonicalize (ECMAScript 22.2.5.6) without the [u] flag: the upper
    case of a code unit, except that a code unit above 127 is never
    mapped to one below 128.  On ASCII this is [a-z] to [A-Z]; a unit
    above 127 stays above 127, which the embedding renders as the
    identity. *)
Definition Canonicalize (ch : ascii) : ascii :=
  let n := N_of_ascii ch in
  if (97 <=? n)%N && (n <=? 122)%N then ascii_of_N (n - 32) else ch.

(** The pattern matched at the start of [s]. *)
Fixpoint match_here (pat s : string) : bool :=
  match pat with
  | EmptyString => true
  | String p pat' =>
      match s with
      | EmptyString => false
      | String c s' =>
          Ascii.eqb (Canonicalize p) (Canonicalize c) && match_here pat' s'
      end
  end.

(** [/pat/i.test(s)]: the pattern is tried at every start index, from
    the left.  The regular expressions of the code have no [g] flag, so
    [test] keeps no state between calls. *)
Fixpoint RegExp_test_i (pat s : string) : bool :=
  match_here pat s
  || match s with
     | EmptyString => false
     | String _ s' => RegExp_test_i pat s'
     end.

(** *** [Number.prototype.toFixed(2)] and unary plus *)

(** What [x.toFixed(2)] returns.  For a finite [x] below 10^21 in
    magnitude it is a decimal numeral with two fraction digits: a sign
    and the integer [n] whose digits are printed, standing for [n/100].
    Otherwise it is [ToString(x)] ("NaN", "Infinity", "-Infinity" or an
    exponent form), which reads back as [x] itself. *)
Inductive FixedString : Type :=
| FixedToString (x : float)
| FixedDigits (negative : bool) (n : Z).

(** The integer [n] for which [n / 100 - m * 2^e] is as close to zero as
    possible, the larger one when there are two (step 11 of toFixed). *)
Definition nearest_hundredths (m : positive) (e : Z) : Z :=
  match e with
  | Zneg k => (200 * Zpos m + 2 ^ Zpos k) / 2 ^ (Zpos k + 1)
  | _ => 100 * Zpos m * 2 ^ e
  end.

Definition toFixed2 (x : float) : FixedString :=
  match Prim2SF x with
  | S754_nan => FixedToString x
  | S754_infinity _ => FixedToString x
  | S754_zero _ => FixedDigits false 0
  | S754_finite s m e =>
      if PrimFloat.leb 1e21 (PrimFloat.abs x) then FixedToString x
      else FixedDigits s (nearest_hundredths m e)
  end.

(** Unary plus on the string: the Number value of the numeral, that is
    the binary64 value nearest to [n/100], ties to even, with the sign
    of the numeral ("-0.00" reads as negative zero).  [SFdiv] is the
    specification of binary64 division; on the integers [n] and [100] it
    rounds the exact quotient once. *)
Definition StringToNumber (s : FixedString) : float :=
  match s with
  | FixedToString x => x
  | FixedDigits negative n =>
      match n with
      | Zpos p =>
          SF2Prim (SFdiv prec emax (S754_finite negative p 0)
                                   (S754_finite false 100 0))
      | _ => SF2Prim (S754_zero negative)
      end
  end.

(** [+x.toFixed(2)] *)
Definition round2 (x : float) : float := StringToNumber (toFixed2 x).

(** *** Dates (ECMAScript 21.4.1)

    A time value is a number of milliseconds since the epoch; [None]
    stands for NaN, the time value of an invalid Date.  The time zone of
    the host is its function [LocalTZA] (21.4.1.8): the offset of local
    time from UTC, in milliseconds, at a given instant; the offset changes
    where daylight saving time begins and ends. *)

Definition msPerDay : Z := 86400000.

Definition Day (t : Z) : Z := t / msPerDay.
Definition TimeWithinDay (t : Z) : Z := t mod msPerDay.

Definition DaysInYear (y : Z) : Z :=
  if negb (y mod 4 =? 0) then 365
  else if negb (y mod 100 =? 0) then 366
  else if negb (y mod 400 =? 0) then 365
  else 366.

Definition DayFromYear (y : Z) : Z :=
  365 * (y - 1970) + (y - 1969) / 4 - (y - 1901) / 100 + (y - 1601) / 400.

(** The largest [y] with [DayFromYear y <= d], searched downwards from
    a year that is not below it. *)
Fixpoint year_search (fuel : nat) (y d : Z) : Z :=
  match fuel with
  | O => y
  | S fuel' =>
      if DayFromYear y <=? d then y else year_search fuel' (y - 1) d
  end.

Definition YearFromDay (d : Z) : Z :=
  year_search 1000 (1970 + (if 0 <=? d then d / 365 else d / 366)) d.

Definition YearFromTime (t : Z) : Z := YearFromDay (Day t).

Definition InLeapYear (t : Z) : Z :=
  if DaysInYear (YearFromTime t) =? 366 then 1 else 0.

Definition DayWithinYear (t : Z) : Z :=
  Day t - DayFromYear (YearFromTime t).

Definition MonthFromTime (t : Z) : Z :=
  let d := DayWithinYear t in
  let leap := InLeapYear t in
  if d <? 31 then 0
  else if d <? 59 + leap then 1
  else if d <? 90 + leap then 2
  else if d <? 120 + leap then 3
  else if d <? 151 + leap then 4
  else if d <? 181 + leap then 5
  else if d <? 212 + leap then 6
  else if d <? 243 + leap then 7
  else if d <? 273 + leap then 8
  else if d <? 304 + leap then 9
  else if d <? 334 + leap then 10
  else 11.

Definition DateFromTime (t : Z) : Z :=
  let d := DayWithinYear t in
  let leap := InLeapYear t in
  match MonthFromTime t with
  | 0 => d + 1
  | 1 => d - 30
  | 2 => d - 58 - leap
  | 3 => d - 89 - leap
  | 4 => d - 119 - leap
  | 5 => d - 150 - leap
  | 6 => d - 180 - leap
  | 7 => d - 211 - leap
  | 8 => d - 242 - leap
  | 9 => d - 272 - leap
  | 10 => d - 303 - leap
  | _ => d - 333 - leap
  end.

(** The day number of the first day of month [mn] (0 to 11) of year
    [ym]: the [t] that MakeDay is asked to find. *)
Definition first_day_of_month (ym mn : Z) : Z :=
  let leap := if DaysInYear ym =? 366 then 1 else 0 in
  DayFromYear ym +
  match mn with
  | 0 => 0
  | 1 => 31
  | 2 => 59 + leap
  | 3 => 90 + leap
  | 4 => 120 + leap
  | 5 => 151 + leap
  | 6 => 181 + leap
  | 7 => 212 + leap
  | 8 => 243 + leap
  | 9 => 273 + leap
  | 10 => 304 + leap
  | _ => 334 + leap
  end.

Definition MakeDay (year month date : Z) : Z :=
  let ym := year + month / 12 in
  let mn := month mod 12 in
  first_day_of_month ym mn + date - 1.

Definition MakeDate (day time : Z) : Z := day * msPerDay + time.

Definition TimeClip (time : Z) : option Z :=
  if 8640000000000000 <? Z.abs time then None else Some time.

(** [new Date(value)] for the time value that [value] denotes: a value
    that is not a date, or one out of range, gives an invalid Date. *)
Definition new_Date (value : Z) : option Z := TimeClip value.

(** [a >= b] and [a <= b] on Dates: the time values are compared, and a
    comparison with NaN is false. *)
Definition Date_ge (a b : option Z) : bool :=
  match a, b with
  | Some x, Some y => y <=? x
  | _, _ => false
  end.

Definition Date_le (a b : option Z) : bool :=
  match a, b with
  | Some x, Some y => x <=? y
  | _, _ => false
  end.

Section LocalTime.

(** [LocalTZA t isUTC]: the offset in force at [t], which is a UTC time
    value when [isUTC] is true and a local one otherwise (a local time that
    is skipped or repeated at a transition is read with the offset before
    the transition). *)
Variable LocalTZA : Z -> bool -> Z.

Definition LocalTime (t : Z) : Z := t + LocalTZA t true.
Definition UTC (t : Z) : Z := t - LocalTZA t false.

(** [d.getMonth()] *)
Definition getMonth (d : option Z) : option Z :=
  match d with
  | Some t => Some (MonthFromTime (LocalTime t))
  | None => None
  end.

(** The time value that [d.setMonth(month)] leaves in [d]: the local
    date of [d] with its month replaced, the day of the month and the time
    of day kept, read back as a local time. *)
Definition setMonth (d : option Z) (month : option Z) : option Z :=
  match d, month with
  | Some t0, Some m =>
      let t := LocalTime t0 in
      let dt := DateFromTime t in
      let newDate :=
        MakeDate (MakeDay (YearFromTime t) m dt) (TimeWithinDay t) in
      TimeClip (UTC newDate)
  | _, _ => None
  end.

End LocalTime.

(** *** Truthiness *)

(** [!!s] for a string that may be [null] or [undefined]: only a string
    with at least one character is truthy. *)
Definition truthy_string (s : option string) : bool :=
  match s with
  | Some (String _ _) => true
  | _ => false
  end.

(** [!!n] for an integer that may be [null] or [undefined]. *)
Definition truthy_int (n : option Z) : bool :=
  match n with
  | Some 0 => false
  | Some _ => true
  | None => false
  end.

(** *** [parseInt(string)] (ECMAScript 19.2.5), radix left out *)

(** The Number for a sign and the magnitude of an integer: the binary64
    value nearest to the integer, ties to even (infinite from
    2^1024 - 2^970 on); with the sign set and the magnitude 0 it is
    negative zero. *)
Definition Number_of_integer (negative : bool) (magnitude : N) : float :=
  let x := SF2Prim (binary_normalize prec emax (Z.of_N magnitude) 0 false) in
  if negative then (- x)%float else x.


(** The one-byte white space and line terminators: TAB, LF, VT, FF, CR
    and SP. *)
Definition is_ascii_space (n : N) : bool :=
  ((9 <=? n) && (n <=? 13) || (n =? 32))%N.

(** The three-byte white space: U+1680, U+2000 to U+200A, U+2028,
    U+2029, U+202F, U+205F, U+3000 and U+FEFF. *)
Definition is_space3 (a b c : N) : bool :=
  ((a =? 225) && (b =? 154) && (c =? 128)
   || (a =? 226) && (b =? 128)
      && ((128 <=? c) && (c <=? 138) || (c =? 168) || (c =? 169)
          || (c =? 175))
   || (a =? 226) && (b =? 129) && (c =? 159)
   || (a =? 227) && (b =? 128) && (c =? 128)
   || (a =? 239) && (b =? 187) && (c =? 191))%N.

(** TrimString(start): leading white space and line terminators are
    removed (U+00A0 is the two bytes 194, 160). *)
Fixpoint TrimStart (s : string) : string :=
  match s with
  | EmptyString => s
  | String a s1 =>
      if is_ascii_space (N_of_ascii a) then TrimStart s1
      else
        match s1 with
        | EmptyString => s
        | String b s2 =>
            if ((N_of_ascii a =? 194) && (N_of_ascii b =? 160))%N
            then TrimStart s2
            else
              match s2 with
              | EmptyString => s
              | String c s3 =>
                  if is_space3 (N_of_ascii a) (N_of_ascii b) (N_of_ascii c)
                  then TrimStart s3
                  else s
              end
        end
  end.

(** The value of a digit: [0-9], then [a-z] or [A-Z] from 10 on. *)
Definition digit_value (c : ascii) : option N :=
  let n := N_of_ascii c in
  if ((48 <=? n) && (n <=? 57))%N then Some (n - 48)%N
  else if ((97 <=? n) && (n <=? 122))%N then Some (n - 87)%N
  else if ((65 <=? n) && (n <=? 90))%N then Some (n - 55)%N
  else None.

(** The longest prefix of [s] made of radix-[R] digits, read as an
    integer; [acc] is what has been read so far, [None] while no digit has
    been. *)
Fixpoint read_digits (R : N) (s : string) (acc : option N) : option N :=
  match s with
  | EmptyString => acc
  | String c s' =>
      match digit_value c with
      | Some d =>
          if (d <? R)%N
          then read_digits R s'
                 (Some (match acc with Some v => v | None => 0 end * R + d)%N)
          else acc
      | None => acc
      end
  end.

(** Steps 7 to 16: the radix is 16 after a prefix [0x] or [0X] and 10
    otherwise; no digit at all gives NaN, and the integer read is returned
    as a Number, rounded once (an engine may replace the decimal digits
    after the twentieth by zeros before it rounds; this is not modelled). *)
Definition read_numeral (negative : bool) (unsigned : string) : float :=
  let '(R, numeral) :=
    match unsigned with
    | String "0" (String "x" rest) => (16%N, rest)
    | String "0" (String "X" rest) => (16%N, rest)
    | _ => (10%N, unsigned)
    end in
  match read_digits R numeral None with
  | None => nan
  | Some mathInt => Number_of_integer negative mathInt
  end.

Definition parseInt (string : string) : float :=
  let trimmed := TrimStart string in
  match trimmed with
  | String "-" rest => read_numeral true rest
  | String "+" rest => read_numeral false rest
  | _ => read_numeral false trimmed
  end.

(** *** [String(n)] for a Number [n] that is an integer
    (Number::toString, ECMAScript 6.1.6.1.20) *)

(** The magnitude of a binary64 Number that is an integer; [None] for an
    infinite one. *)
Definition integer_value (x : spec_float) : option Z :=
  match x with
  | S754_zero _ => Some 0
  | S754_finite _ m e =>
      Some (if 0 <=? e then Zpos m * 2 ^ e else Zpos m / 2 ^ (- e))
  | _ => None
  end.

(** Whether the integer [v] denotes the Number of value [x]. *)
Definition reads_back (x v : Z) : bool :=
  match integer_value (binary_normalize prec emax v 0 false) with
  | Some w => w =? x
  | None => false
  end.

(** Step 5: among the integers [s * 10^(nd - k)] that denote the Number of
    value [x], one with the fewest digits [k] in [s], the closest to [x]
    when there are two, and then the one with [s] even.  [nd] is the number
    of digits of [x], and the search starts at [k]. *)
Fixpoint shortest_digits (fuel : nat) (k nd x : Z) : Z :=
  match fuel with
  | O => x
  | S fuel' =>
      let p := 10 ^ (nd - k) in
      let lo := x / p * p in
      let hi := lo + p in
      match reads_back x lo, reads_back x hi with
      | true, true =>
          if x - lo <? hi - x then lo
          else if hi - x <? x - lo then hi
          else if Z.even (x / p) then lo else hi
      | true, false => lo
      | false, true => hi
      | false, false => shortest_digits fuel' (k + 1) nd x
      end
  end.

Fixpoint strip_trailing_zeros (s : string) : string :=
  match s with
  | EmptyString => EmptyString
  | String c s' =>
      match strip_trailing_zeros s' with
      | EmptyString => if Ascii.eqb c "0" then EmptyString else String c ""
      | rest => String c rest
      end
  end.

Definition digits_of (v : Z) : string :=
  NilZero.string_of_uint (N.to_uint (Z.to_N v)).

(** Steps 6 to 12 for a positive integer [a] beyond the safe integers:
    the digits of step 5 followed by zeros while there are at most 21
    digits in all, and the exponent form otherwise. *)
Definition toString_beyond_safe (a : Z) : string :=
  match integer_value (binary_normalize prec emax a 0 false) with
  | None => "Infinity"
  | Some x =>
      let nd := Z.of_nat (String.length (digits_of x)) in
      let v := shortest_digits (Z.to_nat nd) 1 nd x in
      let n := Z.of_nat (String.length (digits_of v)) in
      if n <=? 21 then digits_of v
      else
        let exponent := digits_of (n - 1) in
        match strip_trailing_zeros (digits_of v) with
        | EmptyString => digits_of v
        | String d EmptyString => String d ("e+" ++ exponent)%string
        | String d rest =>
            String d ("." ++ rest ++ "e+" ++ exponent)%string
        end
  end.

(** [String(n)] for the Number that the integer [n] denotes.  A safe
    integer (at most 2^53 - 1 in magnitude) is a Number and prints as its
    decimal digits, with a minus sign when negative; a larger integer is
    read as the Number nearest to it and prints with the fewest digits that
    denote that Number. *)
Definition Number_toString (n : Z) : string :=
  if Z.abs n <=? 9007199254740991 then NilZero.string_of_int (Z.to_int n)
  else if n <? 0 then ("-" ++ toString_beyond_safe (- n))%string
  else toString_beyond_safe n.

(** *** The two [replace] calls of the status label *)

(** [s.replace(pattern, replacement)] with a string pattern: the first
    occurrence only ([replacement] has no [$]). *)
Fixpoint replace_first (pattern replacement s : string) : string :=
  if String.prefix pattern s
  then (replacement ++ substring (String.length pattern)
                         (String.length s - String.length pattern) s)%string
  else
    match s with
    | EmptyString => EmptyString
    | String c s' => String c (replace_first pattern replacement s')
    end.

(** The class [\w]: [A-Za-z0-9_]. *)
Definition is_word_char (c : ascii) : bool :=
  let n := N_of_ascii c in
  ((48 <=? n) && (n <=? 57) || (65 <=? n) && (n <=? 90)
   || (97 <=? n) && (n <=? 122) || (n =? 95))%N.

(** [s.replace(/\b\w/g, c => c.toUpperCase())]: a word character is
    matched where the character before it is not one (or there is none).
    [previous_is_word] tells whether the character before [s] is a word
    character. *)
Fixpoint upper_word_starts (previous_is_word : bool) (s : string) : string :=
  match s with
  | EmptyString => EmptyString
  | String c s' =>
      String (if is_word_char c && negb previous_is_word
              then Canonicalize c else c)
             (upper_word_starts (is_word_char c) s')
  end.

(** *** [s.length] *)

(** The number of UTF-16 code units of a string held as UTF-8 bytes: a
    continuation byte (128 to 191) adds nothing, the first byte of a
    character adds one, and the first byte of a four-byte character adds
    two, for its surrogate pair. *)
Fixpoint String_length (s : string) : nat :=
  match s with
  | EmptyString => 0
  | String c s' =>
      let n := N_of_ascii c in
      ((if ((128 <=? n) && (n <=? 191))%N then 0
        else if (240 <=? n)%N then 2
        else 1) + String_length s')%nat
  end.

End JS.

(* ================================================================== *)
(** ** Data model *)

(** [{ capacity: string; points: number }] *)
Record BehaviorRating : Type := mkRating {
  capacity : string;
  points : float
}.

(** The enumeration [EvaluationStatus]. *)
Inductive EvaluationStatus : Type :=
| NEW
| IN_PROGRESS
| COMPLETE
| SENT.

(** A row of the appraisal cycle table.  An id is an integer; in
    JavaScript it is a Number, so that an integer beyond the safe integers
    (2^53 - 1 in magnitude) stands for the Number nearest to it. *)
Record AppraisalCycle : Type := mkCycle {
  cycle_id : Z;
  cycle_academicYear : string;
  cycle_startDate : Z;
  cycle_endDateValue : Z;
  cycle_isActive : bool
}.

(* ================================================================== *)
(** ** Awaited operations inside [try ... catch]

    A handler awaits operations of the outside world (the session, the
    database, a library) one after the other.  Its embedding returns the
    operations it awaited, in order and with their arguments, next to its
    result; what each operation settles to is given from outside.  The
    line that a [catch] block writes to the console is left out. *)

Module Async.

(** What an awaited promise settles to. *)
Inductive settled (A : Type) : Type :=
| fulfilled (a : A)
| rejected.

Arguments fulfilled {A} a.
Arguments rejected {A}.

(** The body of a [try]: the operations awaited so far and either a
    value or the fact that one of them threw. *)
Definition M (Call A : Type) : Type := (list Call * settled A)%type.

Definition ret {Call A : Type} (a : A) : M Call A := ([], fulfilled a).

(** [await operation], where the operation settles to [answer]. *)
Definition await {Call A : Type} (operation : Call) (answer : settled A)
  : M Call A :=
  ([operation], answer).

(** An exception thrown by the code of the body itself. *)
Definition throw {Call A : Type} : M Call A := ([], rejected).

Definition bind {Call A B : Type} (m : M Call A) (k : A -> M Call B)
  : M Call B :=
  match m with
  | (calls, fulfilled a) =>
      let (calls', b) := k a in (calls ++ calls', b)
  | (calls, rejected) => (calls, rejected)
  end.

(** [try { body } catch { return handler }] *)
Definition try_catch {Call A : Type} (body : M Call A) (handler : A)
  : list Call * A :=
  match body with
  | (calls, fulfilled a) => (calls, a)
  | (calls, rejected) => (calls, handler)
  end.

Module Notations.
Notation "x <- m ;; k" := (bind m (fun x => k))
  (at level 61, m at next level, right associativity).
End Notations.

End Async.

(* ================================================================== *)
(** ** [src/app/api/hod/appraisals/route.ts] *)

Module Route.

(** [behaviorRatings.find(b => /re/i.test(b.capacity))?.points ?? 0] *)
Definition find_points (re : string) (behaviorRatings : list BehaviorRating)
  : float :=
  JS.nullish
    (JS.optchain
       (find (fun b => JS.RegExp_test_i re (capacity b)) behaviorRatings)
       points)
    0%float.

Definition normalizedRatings (behaviorRatings : list BehaviorRating)
  : list BehaviorRating :=
  [ mkRating "Institutional Commitment"
             (find_points "institutional" behaviorRatings);
    mkRating "Collaboration & Teamwork"
             (find_points "collaboration" behaviorRatings);
    mkRating "Professionalism"
             (find_points "professionalism" behaviorRatings);
    mkRating "Client Service"
             (find_points "client" behaviorRatings);
    mkRating "Achieving Results"
             (find_points "achieving" behaviorRatings) ].

(** A row of the evaluation table, with its behaviour ratings included.
    The numeric columns are carried as [number | null]. *)
Record Evaluation : Type := mkEvaluation {
  eval_totalScore : option float;
  eval_researchPts : option float;
  eval_universityServicePts : option float;
  eval_communityServicePts : option float;
  eval_teachingQualityPts : option float;
  eval_behaviorRatings : list BehaviorRating
}.

(** An appraisal as [findMany] returns it; [evaluations] is ordered by
    [createdAt], latest first. *)
Record Appraisal : Type := mkAppraisal {
  id : Z;
  status : EvaluationStatus;
  facultyName : string;
  cycleEndDate : Z;
  evaluations : list Evaluation
}.

(** The [evaluation] object of the response. *)
Record EvaluationView : Type := mkView {
  totalScore : option float;
  researchPts : option float;
  universityServicePts : option float;
  communityServicePts : option float;
  teachingQualityPts : option float;
  behaviorRatings : list BehaviorRating
}.

(** [{ ...a, evaluation }] *)
Record AppraisalWithEvaluation : Type := mkWithEvaluation {
  spread : Appraisal;
  evaluation : EvaluationView
}.

(** The body of the arrow function given to [appraisals.map]. *)
Definition withEvaluation (a : Appraisal) : AppraisalWithEvaluation :=
  let latestEval := nth_error (evaluations a) 0 in
  let behaviorRatings :=
    JS.nullish (JS.optchain latestEval eval_behaviorRatings) [] in
  let normalizedRatings := normalizedRatings behaviorRatings in
  mkWithEvaluation a
    match latestEval with
    | Some latestEval =>
        mkView (eval_totalScore latestEval)
               (eval_researchPts latestEval)
               (eval_universityServicePts latestEval)
               (eval_communityServicePts latestEval)
               (eval_teachingQualityPts latestEval)
               normalizedRatings
    | None =>
        mkView (Some 0%float) (Some 0%float) (Some 0%float) (Some 0%float)
               (Some 0%float) normalizedRatings
    end.

Definition appraisalsWithEvaluation (appraisals : list Appraisal)
  : list AppraisalWithEvaluation :=
  map withEvaluation appraisals.

(** *** The handler [GET] *)

Import Async.Notations.

(** [session?.user?.email] reads through these two objects. *)
Record SessionUser : Type := mkSessionUser {
  session_email : option string
}.

Record Session : Type := mkSession {
  session_user : option SessionUser
}.

(** The columns of the user table that the handler reads.  A role is the
    name of a member of the enumeration [UserRole]; the id of a department
    is an integer, as the other ids are ([parseInt(cycleId)]), so that
    [!user.departmentId] holds for a missing id and for 0. *)
Record User : Type := mkUser {
  user_role : string;
  user_departmentId : option Z
}.

(** The [where] clause given to [prisma.appraisal.findMany]:
    [{ faculty: { departmentId, role, name?: { contains, mode:
    'insensitive' } }, cycleId?, status? }]. *)
Record WhereClause : Type := mkWhere {
  where_faculty_departmentId : Z;
  where_faculty_role : string;
  where_faculty_name_contains : option string;
  where_cycleId : option float;
  where_status : option string
}.

(** [searchParams.get(name)]: the value of the first pair of that name,
    [null] when there is none. *)
Definition searchParams_get (searchParams : list (string * string))
  (name : string) : option string :=
  JS.optchain (find (fun kv => String.eqb (fst kv) name) searchParams) snd.

(** "Parse query params" and the construction of [whereClause]. *)
Definition whereClause (departmentId : Z)
  (searchParams : list (string * string)) : WhereClause :=
  let cycleId := searchParams_get searchParams "cycleId" in
  let status := searchParams_get searchParams "status" in
  let search := searchParams_get searchParams "search" in
  mkWhere departmentId "INSTRUCTOR"
    (if JS.truthy_string search then search else None)
    (if JS.truthy_string cycleId
     then JS.optchain cycleId JS.parseInt else None)
    (if JS.truthy_string status then status else None).

(** The operations the handler awaits. *)
Inductive Call : Type :=
| getSession
| user_findUnique (email : string)
| appraisal_findMany (where_ : WhereClause)
| appraisalCycle_findMany.

(** What they settle to. *)
Record World : Type := mkWorld {
  world_getSession : Async.settled (option Session);
  world_user_findUnique : string -> Async.settled (option User);
  world_appraisal_findMany : WhereClause -> Async.settled (list Appraisal);
  world_appraisalCycle_findMany : Async.settled (list AppraisalCycle)
}.

Inductive Response : Type :=
| NextResponse (body : string) (status : Z)
| NextResponse_json (appraisals : list AppraisalWithEvaluation)
    (cycles : list AppraisalCycle).

Definition GET (world : World) (searchParams : list (string * string))
  : list Call * Response :=
  Async.try_catch
    (session <- Async.await getSession (world_getSession world) ;;
     let email :=
       JS.optchain_opt (JS.optchain_opt session session_user)
         session_email in
     if negb (JS.truthy_string email)
     then Async.ret (NextResponse "Unauthorized" 401)
     else
       let email := JS.nullish email "" in
       user <- Async.await (user_findUnique email)
                 (world_user_findUnique world email) ;;
       match user with
       | None => Async.ret (NextResponse "Unauthorized" 401)
       | Some user =>
           if negb (String.eqb (user_role user) "HOD")
           then Async.ret (NextResponse "Unauthorized" 401)
           else if negb (JS.truthy_int (user_departmentId user))
           then Async.ret (NextResponse_json [] [])
           else
             let departmentId := JS.nullish (user_departmentId user) 0 in
             let whereClause := whereClause departmentId searchParams in
             appraisals <- Async.await (appraisal_findMany whereClause)
                             (world_appraisal_findMany world whereClause) ;;
             let appraisalsWithEvaluation :=
               appraisalsWithEvaluation appraisals in
             cycles <- Async.await appraisalCycle_findMany
                         (world_appraisalCycle_findMany world) ;;
             Async.ret (NextResponse_json appraisalsWithEvaluation cycles)
       end)
    (NextResponse "Internal Server Error" 500).

(** Whether an awaited operation throws in a given world. *)
Definition rejects (world : World) (call : Call) : bool :=
  match call with
  | getSession =>
      match world_getSession world with
      | Async.rejected => true
      | _ => false
      end
  | user_findUnique email =>
      match world_user_findUnique world email with
      | Async.rejected => true
      | _ => false
      end
  | appraisal_findMany where_ =>
      match world_appraisal_findMany world where_ with
      | Async.rejected => true
      | _ => false
      end
  | appraisalCycle_findMany =>
      match world_appraisalCycle_findMany world with
      | Async.rejected => true
      | _ => false
      end
  end.

(** The caller of a request, when the session names a user who is a head
    of department with a department. *)
Definition caller_department (world : World) : option Z :=
  match world_getSession world with
  | Async.fulfilled session =>
      let email :=
        JS.optchain_opt (JS.optchain_opt session session_user)
          session_email in
      if JS.truthy_string email then
        match world_user_findUnique world (JS.nullish email "") with
        | Async.fulfilled (Some user) =>
            if String.eqb (user_role user) "HOD"
               && JS.truthy_int (user_departmentId user)
            then user_departmentId user
            else None
        | _ => None
        end
      else None
  | Async.rejected => None
  end.

End Route.

(* ================================================================== *)
(** ** The appraisal tables (HOD and Dean components) *)

Module Table.

(** The optional [evaluation] object of [AppraisalWithDetails]; every
    field is optional. *)
Record Evaluation : Type := mkEvaluation {
  behaviorRatings : option (list BehaviorRating);
  totalScore : option float;
  researchPts : option float;
  universityServicePts : option float;
  communityServicePts : option float;
  teachingQualityPts : option float
}.

(** [AppraisalWithDetails], with the fields the pipeline reads.
    [cycle_endDate] is the time value that [appraisal.cycle.endDate]
    denotes.  [appraisal_totalScore] is the [totalScore] property of the
    appraisal object itself, read by [fetchData] through [a.totalScore]. *)
Record AppraisalWithDetails : Type := mkAppraisal {
  status : EvaluationStatus;
  faculty_name : string;
  cycle_endDate : Z;
  appraisal_totalScore : option float;
  evaluation : option Evaluation
}.

(** *** The eligibility gate

    [LocalTZA] is the time zone of the browser and [now] the time value
    that [new Date()] reads from the clock at the moment of the call. *)
Definition shouldEnableEvaluation (LocalTZA : Z -> bool -> Z) (now : Z)
  (appraisal : AppraisalWithDetails) : bool :=
  match status appraisal with
  | COMPLETE => false
  | NEW =>
      let cycleEndDate := JS.new_Date (cycle_endDate appraisal) in
      let oneMonthBeforeEnd := cycleEndDate in
      let oneMonthBeforeEnd :=
        JS.setMonth LocalTZA oneMonthBeforeEnd
          (option_map (fun m => m - 1)
             (JS.getMonth LocalTZA oneMonthBeforeEnd)) in
      let now := Some now in
      JS.Date_ge now oneMonthBeforeEnd && JS.Date_le now cycleEndDate
  | _ => true
  end.

(** *** [fetchData] of the HOD table: "Ensure evaluation exists" *)
Definition withEval (a : AppraisalWithDetails) : AppraisalWithDetails :=
  mkAppraisal (status a) (faculty_name a) (cycle_endDate a)
    (appraisal_totalScore a)
    (Some
       (mkEvaluation
          (Some (JS.nullish
                   (JS.optchain_opt (evaluation a) behaviorRatings) []))
          (Some (JS.nullish
                   (JS.optchain_opt (evaluation a) totalScore)
                   (JS.nullish (appraisal_totalScore a) 0%float)))
          (Some (JS.nullish
                   (JS.optchain_opt (evaluation a) researchPts) 0%float))
          (Some (JS.nullish
                   (JS.optchain_opt (evaluation a) universityServicePts)
                   0%float))
          (Some (JS.nullish
                   (JS.optchain_opt (evaluation a) communityServicePts)
                   0%float))
          (Some (JS.nullish
                   (JS.optchain_opt (evaluation a) teachingQualityPts)
                   0%float)))).

Definition appraisalsWithEval (appraisals : list AppraisalWithDetails)
  : list AppraisalWithDetails :=
  map withEval appraisals.

(** *** CSV export *)

(** [a.evaluation ?? {}] *)
Definition evalData (a : AppraisalWithDetails) : Evaluation :=
  JS.nullish (evaluation a) (mkEvaluation None None None None None None).

(** [Array.isArray(evalData.behaviorRatings) ? evalData.behaviorRatings : []] *)
Definition ratings (a : AppraisalWithDetails) : list BehaviorRating :=
  match behaviorRatings (evalData a) with
  | Some l => l
  | None => []
  end.

(** [ratings.find(r => r.capacity === capacity)?.points ?? 0] *)
Definition getPoints (ratings : list BehaviorRating) (capacity' : string)
  : float :=
  JS.nullish
    (JS.optchain
       (find (fun r => String.eqb (capacity r) capacity') ratings)
       points)
    0%float.

Definition rawPerformance (a : AppraisalWithDetails) : float :=
  (JS.nullish (researchPts (evalData a)) 0
   + JS.nullish (universityServicePts (evalData a)) 0
   + JS.nullish (communityServicePts (evalData a)) 0
   + JS.nullish (teachingQualityPts (evalData a)) 0)%float.

Definition rawCapabilities (a : AppraisalWithDetails) : float :=
  (getPoints (ratings a) "Institutional Commitment"
   + getPoints (ratings a) "Collaboration & Teamwork"
   + getPoints (ratings a) "Professionalism"
   + getPoints (ratings a) "Client Service"
   + getPoints (ratings a) "Achieving Results")%float.

Definition scalePerformance (points : float) : float :=
  JS.round2 (points * 3 / 100)%float.

Definition scaleCapabilities (points : float) : float :=
  JS.round2 (points * 7 / 100)%float.

Definition totalPerformanceScaled (a : AppraisalWithDetails) : float :=
  scalePerformance (rawPerformance a).

Definition totalCapabilitiesScaled (a : AppraisalWithDetails) : float :=
  scaleCapabilities (rawCapabilities a).

Definition overallTotalScaled (a : AppraisalWithDetails) : float :=
  JS.round2
    ((totalPerformanceScaled a + totalCapabilitiesScaled a) / 2)%float.

(** A cell of a row: the instructor's name or a number. *)
Inductive Cell : Type :=
| CellString (s : string)
| CellNumber (x : float).

(** The object literal returned for one appraisal: its properties in
    the order they are written, which is the order [Object.keys] and so
    the CSV header follow (no key is an array index). *)
Definition exportRow (a : AppraisalWithDetails) : list (string * Cell) :=
  [ ("Instructor", CellString (faculty_name a));
    ("Research & Scientific Activities ",
      CellNumber (JS.nullish (researchPts (evalData a)) 0%float));
    ("University Service ",
      CellNumber (JS.nullish (universityServicePts (evalData a)) 0%float));
    ("Community Service ",
      CellNumber (JS.nullish (communityServicePts (evalData a)) 0%float));
    ("Quality of Teaching ",
      CellNumber (JS.nullish (teachingQualityPts (evalData a)) 0%float));
    ("Total Performance (out of 100)", CellNumber (rawPerformance a));
    ("Total Performance (out of 3)", CellNumber (totalPerformanceScaled a));
    ("Institutional Commitment ",
      CellNumber (getPoints (ratings a) "Institutional Commitment"));
    ("Collaboration & Teamwork ",
      CellNumber (getPoints (ratings a) "Collaboration & Teamwork"));
    ("Professionalism ",
      CellNumber (getPoints (ratings a) "Professionalism"));
    ("Client Service ",
      CellNumber (getPoints (ratings a) "Client Service"));
    ("Achieving Results ",
      CellNumber (getPoints (ratings a) "Achieving Results"));
    ("Total Capabilities ( out of 100)", CellNumber (rawCapabilities a));
    ("Total Capabilities (out of 7)",
      CellNumber (totalCapabilitiesScaled a));
    ("Overall Total (out of 5)", CellNumber (overallTotalScaled a)) ].

(** The rows handed to [Papa.unparse]; [None] when the guard
    [if (!data?.appraisals?.length) return] leaves without exporting. *)
Definition exportCSV (data : option (list AppraisalWithDetails))
  : option (list (list (string * Cell))) :=
  match data with
  | None => None
  | Some [] => None
  | Some appraisals => Some (map exportRow appraisals)
  end.

(** The value of a column of a row. *)
Definition column (key : string) (row : list (string * Cell))
  : option Cell :=
  JS.optchain (find (fun kv => String.eqb (fst kv) key) row) snd.

(** *** The "Total Score" cell of a table row *)

(** What the cell shows: the score with two decimals, or a dash. *)
Inductive ScoreCell : Type :=
| ScoreFixed (digits : JS.FixedString)
| ScoreDash.

(** HOD table: [appraisal.evaluation?.totalScore?.toFixed(2) ?? '-'] *)
Definition totalScoreCell (appraisal : AppraisalWithDetails) : ScoreCell :=
  match JS.optchain_opt (evaluation appraisal) totalScore with
  | Some x => ScoreFixed (JS.toFixed2 x)
  | None => ScoreDash
  end.

(** *** The filters, the request and [fetchData] *)

(** [{ cycle: '', status: '', search: '' }] *)
Record Filters : Type := mkFilters {
  filter_cycle : string;
  filter_status : string;
  filter_search : string
}.





(** [AppraisalsData] *)
Record AppraisalsData : Type := mkData {
  data_appraisals : list AppraisalWithDetails;
  data_cycles : list AppraisalCycle
}.

(** The state of the component. *)
Record State : Type := mkState {
  data : option AppraisalsData;
  loading : bool;
  error : option string;
  filters : Filters
}.

(** How the request of [fetchData] ends: [fetch] or [res.json()] throws
    (an [Error] with its message, or something else), the answer is not
    [ok], or the answer is [ok] with its parsed body. *)
Inductive FetchOutcome : Type :=
| fetch_threw (message : option string)
| fetch_not_ok
| fetch_ok (result : AppraisalsData).

(** The update of the filters at the end of the [try] block: when no
    cycle is chosen (in the filters the call was made with) and some cycle
    is active, the first active cycle is chosen. *)
Definition selectActiveCycle (filters : Filters)
  (cycles : list AppraisalCycle) (prev : Filters) : Filters :=
  if negb (JS.truthy_string (Some (filter_cycle filters)))
     && existsb cycle_isActive cycles
  then
    match find cycle_isActive cycles with
    | Some active =>
        mkFilters (JS.Number_toString (cycle_id active))
          (filter_status prev) (filter_search prev)
    | None => prev
    end
  else prev.

(** [e instanceof Error ? e.message : 'Unknown error'], with the error
    thrown for an answer that is not [ok]. *)
Definition errorMessage (outcome : FetchOutcome) : string :=
  match outcome with
  | fetch_threw message => JS.nullish message "Unknown error"
  | fetch_not_ok => "Failed to fetch appraisals"
  | fetch_ok _ => ""
  end.

(** [fetchData] of the HOD table, called with [filters] and ending as
    [outcome] says: the state it leaves, from the state at its start. *)
Definition fetchData (filters : Filters) (outcome : FetchOutcome)
  (state : State) : State :=
  match outcome with
  | fetch_ok result =>
      mkState
        (Some (mkData (appraisalsWithEval (data_appraisals result))
                 (data_cycles result)))
        false
        None
        (selectActiveCycle filters (data_cycles result) (Table.filters state))
  | _ =>
      mkState (data state) false (Some (errorMessage outcome))
        (Table.filters state)
  end.

(** [fetchData] of the Dean table: it neither completes the appraisals
    nor resets the error at its start. *)
Definition deanFetchData (filters : Filters) (outcome : FetchOutcome)
  (state : State) : State :=
  match outcome with
  | fetch_ok result =>
      mkState (Some result) false (error state)
        (selectActiveCycle filters (data_cycles result) (Table.filters state))
  | _ =>
      mkState (data state) false (Some (errorMessage outcome))
        (Table.filters state)
  end.

(** *** The status select of the HOD table *)

(** [Object.values(EvaluationStatus)] *)
Definition EvaluationStatus_values : list string :=
  [ "new"; "in_progress"; "complete"; "sent" ].

(** [s.replace('_', ' ').replace(/\b\w/g, c => c.toUpperCase())] *)
Definition statusLabel (s : string) : string :=
  JS.upper_word_starts false (JS.replace_first "_" " " s).

End Table.


(* ================================================================== *)
(** ** Resetting a password: the route [/api/auth/reset-password] and the
    dialog [ResetPasswordModal] *)

Module ResetPassword.

Import Async.Notations.

(** What [req.json()] resolves to: [null], or a value whose properties
    [email] and [newPassword] can be read, each a string or missing. *)
Inductive Body : Type :=
| json_null
| mkBody (body_email : option string) (body_newPassword : option string).

Definition body_email (body : Body) : option string :=
  match body with
  | mkBody email _ => email
  | json_null => None
  end.

Definition body_newPassword (body : Body) : option string :=
  match body with
  | mkBody _ newPassword => newPassword
  | json_null => None
  end.

(** A row of the user table, as far as the handler is concerned. *)
Record User : Type := mkUser {
  user_email : string;
  user_passwordHash : string
}.

(** The operations the handler awaits. *)
Inductive Call : Type :=
| req_json
| user_findUnique (email : option string)
| bcrypt_hash (data : option string) (rounds : Z)
| user_update (email : option string) (passwordHash : string).

(** What they settle to. *)
Record World : Type := mkWorld {
  world_req_json : Async.settled Body;
  world_user_findUnique : option string -> Async.settled (option User);
  world_bcrypt_hash : option string -> Z -> Async.settled string;
  world_user_update : option string -> string -> Async.settled unit
}.

(** [NextResponse.json({ error } or { message }, { status })] *)
Record Response : Type := mkResponse {
  response_error : option string;
  response_message : option string;
  response_status : Z
}.

(** The handler.  Destructuring [null] throws a [TypeError], inside the
    [try] block. *)
Definition POST (world : World) : list Call * Response :=
  Async.try_catch
    (body <- Async.await req_json (world_req_json world) ;;
     match body with
     | json_null => Async.throw
     | mkBody email newPassword =>
         user <- Async.await (user_findUnique email)
                   (world_user_findUnique world email) ;;
         match user with
         | None => Async.ret (mkResponse (Some "Email not found") None 404)
         | Some _ =>
             hashed <- Async.await (bcrypt_hash newPassword 10)
                         (world_bcrypt_hash world newPassword 10) ;;
             _ <- Async.await (user_update email hashed)
                    (world_user_update world email hashed) ;;
             Async.ret
               (mkResponse None (Some "Password updated successfully") 200)
         end
     end)
    (mkResponse (Some "Server error") None 500).

(** Whether an awaited operation throws in a given world. *)
Definition rejects (world : World) (call : Call) : bool :=
  match call with
  | req_json =>
      match world_req_json world with
      | Async.rejected => true
      | _ => false
      end
  | user_findUnique email =>
      match world_user_findUnique world email with
      | Async.rejected => true
      | _ => false
      end
  | bcrypt_hash data rounds =>
      match world_bcrypt_hash world data rounds with
      | Async.rejected => true
      | _ => false
      end
  | user_update email passwordHash =>
      match world_user_update world email passwordHash with
      | Async.rejected => true
      | _ => false
      end
  end.

(** *** The dialog *)

(** The state of the dialog. *)
Record ModalState : Type := mkModal {
  email : string;
  newPassword : string;
  confirmPassword : string;
  isLoading : bool;
  error : string;
  success : bool
}.

(** How the request of [handleSubmit] ends: [fetch] or [response.json()]
    throws (an [Error] with its message, or something else), or the
    answer arrives. *)
Inductive Reply : Type :=
| reply_threw (message : option string)
| reply_response (response : Response).

(** [response.ok] *)
Definition ok (response : Response) : bool :=
  (200 <=? response_status response) && (response_status response <=? 299).

(** [handleSubmit]: the body it posts, if it posts one, and the state it
    leaves.  [reply] is how the request ends when it is made.  (The
    timer that closes the dialog after a success is not part of this.) *)
Definition handleSubmit (reply : Reply) (state : ModalState)
  : option Body * ModalState :=
  if negb (String.eqb (newPassword state) (confirmPassword state)) then
    (None,
     mkModal (email state) (newPassword state) (confirmPassword state)
       (isLoading state) "Passwords do not match" (success state))
  else if (JS.String_length (newPassword state) <? 6)%nat then
    (None,
     mkModal (email state) (newPassword state) (confirmPassword state)
       (isLoading state) "Password must be at least 6 characters long"
       (success state))
  else
    (Some (mkBody (Some (email state)) (Some (newPassword state))),
     match reply with
     | reply_response response =>
         if negb (ok response) then
           mkModal (email state) (newPassword state) (confirmPassword state)
             false
             (if JS.truthy_string (response_error response)
              then JS.nullish (response_error response) ""
              else "Failed to reset password")
             (success state)
         else
           mkModal (email state) (newPassword state) (confirmPassword state)
             false "" true
     | reply_threw message =>
         mkModal (email state) (newPassword state) (confirmPassword state)
           false
           (JS.nullish message "Something went wrong. Please try again.")
           (success state)
     end).

(** [handleClose]: every field is reset (and [onClose] is called). *)
Definition handleClose (state : ModalState) : ModalState :=
  mkModal "" "" "" (isLoading state) "" false.

(** The dialog submitted to the route: the handler receives the body
    that the dialog posted and the dialog receives the handler's answer.
    The operations the handler awaited come with the state the dialog is
    left in. *)
Definition submit (world : World) (state : ModalState)
  : list Call * ModalState :=
  match fst (handleSubmit (reply_threw None) state) with
  | None => ([], snd (handleSubmit (reply_threw None) state))
  | Some body =>
      let served :=
        POST (mkWorld (Async.fulfilled body) (world_user_findUnique world)
                (world_bcrypt_hash world) (world_user_update world)) in
      (fst served, snd (handleSubmit (reply_response (snd served)) state))
  end.

End ResetPassword.

(* ================================================================== *)
(** ** [printAchievements]: the content of the PDF *)

Module Achievements.

(** The records of the six collections, with the fields that are
    printed.  A field that the code guards with [||], [??] or [?.] may be
    missing; a date is the time value it denotes. *)
Record Award : Type := mkAward {
  award_name : string;
  award_area : option string;
  award_organization : option string;
  award_dateObtained : option Z
}.

Record Course : Type := mkCourse {
  course_academicYear : string;
  course_semester : string;
  course_courseCode : option string;
  course_section : option string;
  course_courseTitle : string;
  course_credit : option float;
  course_studentsCount : option float;
  course_studentsEvalAvg : option float
}.

Record ResearchActivity : Type := mkResearch {
  research_title : string;
  research_type : string;
  research_kind : string;
  research_journalOrPublisher : option string;
  research_participation : option string;
  research_publicationDate : option Z
}.

Record ScientificActivity : Type := mkScientific {
  scientific_title : string;
  scientific_type : string;
  scientific_date : option Z;
  scientific_participation : option string;
  scientific_organizingAuth : option string;
  scientific_venue : option string
}.

(** Community services and university services have the same fields. *)
Record Service : Type := mkService {
  service_committeeOrTask : string;
  service_authority : option string;
  service_participation : option string;
  service_dateFrom : option Z;
  service_dateTo : option Z
}.

(** The appraisal, with the fields that [printAchievements] reads. *)
Record Appraisal : Type := mkAppraisal {
  faculty_name : string;
  faculty_department_name : option string;
  cycle_academicYear : string;
  awards : option (list Award);
  courses : option (list Course);
  researchActivities : option (list ResearchActivity);
  scientificActivities : option (list ScientificActivity);
  communityServices : option (list Service);
  universityServices : option (list Service)
}.

(** A cell of a table body. [localeDate t] stands for
    [new Date(t).toLocaleDateString()], whose text depends on the
    locale. *)
Inductive Cell : Type :=
| text (s : string)
| number (x : float)
| fixed (digits : JS.FixedString)
| localeDate (t : Z).

(** [x || '-'] *)
Definition or_dash (x : option string) : Cell :=
  if JS.truthy_string x then text (JS.nullish x "") else text "-".

(** [d ? new Date(d).toLocaleDateString() : '-'] *)
Definition date_or_dash (d : option Z) : Cell :=
  match d with
  | Some t => localeDate t
  | None => text "-"
  end.

(** [x ?? '-'] *)
Definition number_or_dash (x : option float) : Cell :=
  match x with
  | Some v => number v
  | None => text "-"
  end.

(** [x?.toFixed(2) ?? '-'] *)
Definition fixed_or_dash (x : option float) : Cell :=
  match x with
  | Some v => fixed (JS.toFixed2 v)
  | None => text "-"
  end.

(** [collection?.map(row) || [placeholder]]: an array, even an empty
    one, is truthy. *)
Definition body_or {A : Type} (collection : option (list A))
  (row : A -> list Cell) (placeholder : list Cell) : list (list Cell) :=
  match collection with
  | Some records => map row records
  | None => [placeholder]
  end.

(** A call of [addTable]. *)
Record PdfTable : Type := mkTable {
  table_title : string;
  table_head : list string;
  table_body : list (list Cell)
}.

(** What is written: the lines of text at the top, the tables in the
    order of the calls of [addTable], and the name of the file saved. *)
Record Document : Type := mkDocument {
  document_lines : list string;
  document_tables : list PdfTable;
  document_filename : string
}.

Definition the_tables (appraisal : Appraisal) : list PdfTable :=
  [ mkTable "Awards" ["Name"; "Area"; "Organization"; "Date"]
      (body_or (awards appraisal)
         (fun a =>
            [ text (award_name a); or_dash (award_area a);
              or_dash (award_organization a);
              date_or_dash (award_dateObtained a) ])
         [text "No records"; text ""; text ""; text ""]);
    mkTable "Courses"
      ["Year"; "Semester"; "Course Code"; "Section"; "Title"; "Credit";
       "Students"; "Eval Avg"]
      (body_or (courses appraisal)
         (fun c =>
            [ text (course_academicYear c); text (course_semester c);
              or_dash (course_courseCode c); or_dash (course_section c);
              text (course_courseTitle c); number_or_dash (course_credit c);
              number_or_dash (course_studentsCount c);
              fixed_or_dash (course_studentsEvalAvg c) ])
         [text "No records"; text ""; text ""; text ""; text ""; text "";
          text ""; text ""]);
    mkTable "Research Activities"
      ["Title"; "Type"; "Kind"; "Journal/Publisher"; "Participation";
       "Publication Date"]
      (body_or (researchActivities appraisal)
         (fun r =>
            [ text (research_title r); text (research_type r);
              text (research_kind r);
              or_dash (research_journalOrPublisher r);
              or_dash (research_participation r);
              date_or_dash (research_publicationDate r) ])
         [text "No records"; text ""; text ""; text ""; text ""; text ""]);
    mkTable "Scientific Activities"
      ["Title"; "Type"; "Date"; "Participation"; "Organizing Authority";
       "Venue"]
      (body_or (scientificActivities appraisal)
         (fun s =>
            [ text (scientific_title s); text (scientific_type s);
              date_or_dash (scientific_date s);
              or_dash (scientific_participation s);
              or_dash (scientific_organizingAuth s);
              or_dash (scientific_venue s) ])
         [text "No records"; text ""; text ""; text ""; text ""; text ""]);
    mkTable "Community Services"
      ["Committee/Task"; "Authority"; "Participation"; "Date From";
       "Date To"]
      (body_or (communityServices appraisal)
         (fun c =>
            [ text (service_committeeOrTask c);
              or_dash (service_authority c);
              or_dash (service_participation c);
              date_or_dash (service_dateFrom c);
              date_or_dash (service_dateTo c) ])
         [text "No records"; text ""; text ""; text ""; text ""]);
    mkTable "University Services"
      ["Committee/Task"; "Authority"; "Participation"; "Date From";
       "Date To"]
      (body_or (universityServices appraisal)
         (fun u =>
            [ text (service_committeeOrTask u);
              or_dash (service_authority u);
              or_dash (service_participation u);
              date_or_dash (service_dateFrom u);
              date_or_dash (service_dateTo u) ])
         [text "No records"; text ""; text ""; text ""; text ""]) ].

(** [printAchievements] of the HOD table. *)
Definition printAchievements (appraisal : Appraisal) : Document :=
  mkDocument
    [ ("Instructor: " ++ faculty_name appraisal)%string;
      ("Department: "
       ++ (if JS.truthy_string (faculty_department_name appraisal)
           then JS.nullish (faculty_department_name appraisal) ""
           else "-"))%string;
      ("Appraisal Cycle: " ++ cycle_academicYear appraisal)%string ]
    (the_tables appraisal)
    (faculty_name appraisal ++ "-achievements.pdf")%string.

(** [printAchievements] of the Dean table: the first line names a head
    of department, and the name of the department is replaced by a dash
    only when it is missing ([??]). *)
Definition deanPrintAchievements (appraisal : Appraisal) : Document :=
  mkDocument
    [ ("HOD: " ++ faculty_name appraisal)%string;
      ("Department: "
       ++ JS.nullish (faculty_department_name appraisal) "-")%string;
      ("Appraisal Cycle: " ++ cycle_academicYear appraisal)%string ]
    (the_tables appraisal)
    (faculty_name appraisal ++ "-achievements.pdf")%string.

End Achievements.

(* ================================================================== *)
(** ** The words of the specification, as definitions of their own *)

Module Spec.

(** The lower case of an ASCII letter; every other character is kept. *)
Definition lower (c : ascii) : ascii :=
  let n := N_of_ascii c in
  if (65 <=? n)%N && (n <=? 90)%N then ascii_of_N (n + 32) else c.

(** Two strings that differ in the case of their letters only. *)
Inductive same_ignoring_case : string -> string -> Prop :=
| sic_empty : same_ignoring_case "" ""
| sic_char a b s t :
    lower a = lower b ->
    same_ignoring_case s t ->
    same_ignoring_case (String a s) (String b t).

(** "[label] contains [keyword] as a case-insensitive substring". *)
Definition contains_ci (keyword label : string) : Prop :=
  exists before middle after,
    label = (before ++ middle ++ after)%string /\
    same_ignoring_case keyword middle.

(** "The first entry whose label contains the keyword", if there is
    one. *)
Inductive first_match (keyword : string)
  : list BehaviorRating -> option BehaviorRating -> Prop :=
| first_match_none l :
    Forall (fun b => ~ contains_ci keyword (capacity b)) l ->
    first_match keyword l None
| first_match_some l1 r l2 :
    Forall (fun b => ~ contains_ci keyword (capacity b)) l1 ->
    contains_ci keyword (capacity r) ->
    first_match keyword (l1 ++ r :: l2) (Some r).

(** "Use its points if found, else 0". *)
Definition points_or_zero (found : option BehaviorRating) : float :=
  match found with
  | Some r => points r
  | None => 0%float
  end.

(** A label that none of the five keywords recognises. *)
Definition unrecognized (label : string) : Prop :=
  ~ contains_ci "institutional" label /\
  ~ contains_ci "collaboration" label /\
  ~ contains_ci "professionalism" label /\
  ~ contains_ci "client" label /\
  ~ contains_ci "achieving" label.

(** The five canonical capacities, in their fixed order. *)
Definition canonical_labels : list string :=
  [ "Institutional Commitment"; "Collaboration & Teamwork";
    "Professionalism"; "Client Service"; "Achieving Results" ].

(** A plain sum, taken from left to right. *)
Definition plain_sum (l : list float) : float :=
  match l with
  | [] => 0%float
  | x :: xs => fold_left PrimFloat.add xs x
  end.

(** The column keys of an export row, as the specification lists them. *)
Definition csv_columns : list string :=
  [ "Instructor"; "Research & Scientific Activities"; "University Service";
    "Community Service"; "Quality of Teaching";
    "Total Performance (out of 100)"; "Total Performance (out of 3)";
    "Institutional Commitment"; "Collaboration & Teamwork";
    "Professionalism"; "Client Service"; "Achieving Results";
    "Total Capabilities (out of 100)"; "Total Capabilities (out of 7)";
    "Overall Total (out of 5)" ].

(** "The first rating whose label is [label]", if there is one. *)
Inductive first_labelled (label : string)
  : list BehaviorRating -> option BehaviorRating -> Prop :=
| first_labelled_none l :
    Forall (fun r => capacity r <> label) l ->
    first_labelled label l None
| first_labelled_some l1 r l2 :
    Forall (fun r' => capacity r' <> label) l1 ->
    capacity r = label ->
    first_labelled label (l1 ++ r :: l2) (Some r).

(** The behaviour ratings that a row carries: those of its evaluation,
    none when the evaluation or its ratings are missing. *)
Definition row_ratings (a : Table.AppraisalWithDetails)
  : list BehaviorRating :=
  match Table.evaluation a with
  | Some e =>
      match Table.behaviorRatings e with
      | Some l => l
      | None => []
      end
  | None => []
  end.


(** *** The civil calendar, counted day by day *)

Definition is_leap_year (y : Z) : bool :=
  (y mod 4 =? 0) && negb (y mod 100 =? 0) || (y mod 400 =? 0).

Definition days_in_year (y : Z) : Z := if is_leap_year y then 366 else 365.

(** The number of days of month [m] of year [y]; January is month 0. *)
Definition days_in_month (y m : Z) : Z :=
  match m with
  | 1 => if is_leap_year y then 29 else 28
  | 3 | 5 | 8 | 10 => 30
  | _ => 31
  end.

(** The days of the [n] years from 1970 on, and of the [n] years before
    1970. *)
Fixpoint days_of_years_from_1970 (n : nat) : Z :=
  match n with
  | O => 0
  | S k => days_of_years_from_1970 k + days_in_year (1970 + Z.of_nat k)
  end.

Fixpoint days_of_years_before_1970 (n : nat) : Z :=
  match n with
  | O => 0
  | S k => days_of_years_before_1970 k + days_in_year (1969 - Z.of_nat k)
  end.

(** The day number of the first of January of year [y]; day 0 is the
    first of January 1970. *)
Definition first_day_of_year (y : Z) : Z :=
  if 1970 <=? y then days_of_years_from_1970 (Z.to_nat (y - 1970))
  else - days_of_years_before_1970 (Z.to_nat (1970 - y)).

(** The days of the months of year [y] that come before month [m]. *)
Definition days_before_month (y m : Z) : Z :=
  fold_right Z.add 0
    (map (days_in_month y)
       (firstn (Z.to_nat m) [0; 1; 2; 3; 4; 5; 6; 7; 8; 9; 10; 11])).

(** The day number of day [d] counted from the first of month [m] of
    year [y]; a [d] past the end of the month runs on into the months that
    follow. *)
Definition civil_day (y m d : Z) : Z :=
  first_day_of_year y + days_before_month y m + (d - 1).

(** Day number [day] is the [d]-th of month [m] of year [y]. *)
Definition is_civil_date (day y m d : Z) : Prop :=
  0 <= m < 12 /\ 1 <= d <= days_in_month y m /\ civil_day y m d = day.

(** The month before month [m] of year [y]. *)
Definition previous_month (y m : Z) : Z * Z :=
  if m =? 0 then (y - 1, 11) else (y, m - 1).

(** The instant at which the local clock shows [h] hours on day [d] of
    month [m] of year [y], for a clock that is [offset] milliseconds ahead
    of UTC; months are counted from 0, as JavaScript counts them. *)
Definition instant (y m d h offset : Z) : Z :=
  civil_day y m d * 86400000 + h * 3600000 - offset.

(** "cycleEndDate - 1 month", with the calendar of the host: [start] is
    the instant at which the local clock shows the time of day of [t] on
    the day that has, counted from the first of the previous month, the
    number that the local day of [t] has in its own month. *)
Definition one_month_before (LocalTZA : Z -> bool -> Z) (t start : Z) : Prop :=
  let local := t + LocalTZA t true in
  exists y m d,
    is_civil_date (local / 86400000) y m d /\
    let local_start :=
      civil_day (fst (previous_month y m)) (snd (previous_month y m)) d
      * 86400000 + local mod 86400000 in
    start = local_start - LocalTZA local_start false.

(** A time zone without daylight saving time: the same offset at every
    instant. *)
Definition fixed_offset (offset : Z) : Z -> bool -> Z := fun _ _ => offset.

(** Whether daylight saving time is in force in the time zone
    America/New_York, for the years 2023 and 2024: from 12 March to 5
    November 2023 and from 10 March to 3 November 2024, changing at 2 a.m.
    local time.  A local time that the change skips or repeats is read
    with the offset before the change. *)
Definition New_York_dst (t : Z) (isUTC : bool) : bool :=
  if isUTC then
    (instant 2023 2 12 7 0 <=? t) && (t <? instant 2023 10 5 6 0)
    || (instant 2024 2 10 7 0 <=? t) && (t <? instant 2024 10 3 6 0)
  else
    (instant 2023 2 12 3 0 <=? t) && (t <? instant 2023 10 5 2 0)
    || (instant 2024 2 10 3 0 <=? t) && (t <? instant 2024 10 3 2 0).

(** America/New_York: five hours behind UTC, four during daylight saving
    time. *)
Definition New_York (t : Z) (isUTC : bool) : Z :=
  if New_York_dst t isUTC then -14400000 else -18000000.

(** A missing number reads as zero. *)
Definition or_zero (x : option float) : float :=
  match x with
  | Some v => v
  | None => 0%float
  end.

(** A lower-case ASCII letter. *)
Definition is_lower (c : ascii) : bool :=
  ((97 <=? N_of_ascii c) && (N_of_ascii c <=? 122))%N.

(** "Every word starts with a capital": no word character that follows a
    character that is not one (or that is the first, when
    [previous_is_word] is [false]) is a lower-case letter. *)
Fixpoint words_start_capital (previous_is_word : bool) (s : string) : Prop :=
  match s with
  | EmptyString => True
  | String c s' =>
      (JS.is_word_char c = true -> previous_is_word = false ->
       is_lower c = false) /\
      words_start_capital (JS.is_word_char c) s'
  end.

End Spec.

(** By how many days lowering the month field moves a date whose local
    day number is [d]. *)
Definition month_shift (d : Z) : Z :=
  JS.MakeDay (JS.YearFromDay d)
    (JS.MonthFromTime (d * JS.msPerDay) - 1)
    (JS.DateFromTime (d * JS.msPerDay)) - d.

(** The time value that [setMonth(getMonth() - 1)] computes from [t],
    before it is clipped. *)
Definition window_start (LocalTZA : Z -> bool -> Z) (t : Z) : Z :=
  let local := t + LocalTZA t true in
  let local_start := local + month_shift (JS.Day local) * JS.msPerDay in
  local_start - LocalTZA local_start false.

(* ================================================================== *)
(** ** Strings and the regular expressions *)

Lemma lower_Canonicalize (c : ascii) :
  Spec.lower (JS.Canonicalize c) = Spec.lower c.
Proof. destruct c as [[] [] [] [] [] [] [] []]; reflexivity. Qed.

Lemma Canonicalize_lower (c : ascii) :
  JS.Canonicalize (Spec.lower c) = JS.Canonicalize c.
Proof. destruct c as [[] [] [] [] [] [] [] []]; reflexivity. Qed.

Lemma Canonicalize_eq_iff (a b : ascii) :
  JS.Canonicalize a = JS.Canonicalize b <-> Spec.lower a = Spec.lower b.
Proof.
  split; intros H.
  - rewrite <- (lower_Canonicalize a), <- (lower_Canonicalize b).
    now rewrite H.
  - rewrite <- (Canonicalize_lower a), <- (Canonicalize_lower b).
    now rewrite H.
Qed.

Lemma match_here_iff (pat s : string) :
  JS.match_here pat s = true <->
  exists middle after,
    s = (middle ++ after)%string /\ Spec.same_ignoring_case pat middle.
Proof.
  revert s; induction pat as [|p pat IH]; intros s; simpl.
  - split; [intros _|reflexivity].
    exists "", s; split; [reflexivity|constructor].
  - destruct s as [|c s].
    + split; [discriminate|].
      intros (middle & after & E & H); inversion H; subst; discriminate.
    + rewrite andb_true_iff, Ascii.eqb_eq, Canonicalize_eq_iff, IH.
      split.
      * intros (Hc & middle & after & E & H); subst s.
        exists (String c middle), after; split; [reflexivity|].
        now constructor.
      * intros (middle & after & E & H).
        inversion H; subst; simpl in E; injection E as E1 E2; subst.
        split; [assumption|]; eauto.
Qed.

Lemma RegExp_test_i_iff (pat s : string) :
  JS.RegExp_test_i pat s = true <-> Spec.contains_ci pat s.
Proof.
  unfold Spec.contains_ci.
  induction s as [|c s IH]; simpl; rewrite orb_true_iff, match_here_iff.
  - split.
    + intros [(middle & after & E & H)|H]; [|discriminate].
      exists "", middle, after; auto.
    + intros (before & middle & after & E & H).
      destruct before; [|discriminate]; simpl in E; left; eauto.
  - rewrite IH; split.
    + intros [(middle & after & E & H)|(before & middle & after & E & H)].
      * exists "", middle, after; auto.
      * exists (String c before), middle, after; subst s; auto.
    + intros (before & middle & after & E & H).
      destruct before as [|c' before]; simpl in E.
      * left; eauto.
      * injection E as E1 E2; right; eauto.
Qed.

Lemma RegExp_test_i_false_iff (pat s : string) :
  JS.RegExp_test_i pat s = false <-> ~ Spec.contains_ci pat s.
Proof.
  rewrite <- RegExp_test_i_iff; destruct (JS.RegExp_test_i pat s);
    split; congruence.
Qed.

(* ================================================================== *)
(** ** [Array.prototype.find] *)

Lemma find_app_skip {A : Type} (f : A -> bool) (l1 : list A) (x : A)
  (l2 : list A) :
  f x = false -> find f (l1 ++ x :: l2) = find f (l1 ++ l2).
Proof.
  intros Hx; induction l1 as [|y l1 IH]; simpl.
  - now rewrite Hx.
  - now rewrite IH.
Qed.

Lemma find_first {A : Type} (f : A -> bool) (l : list A) :
  match find f l with
  | Some x =>
      exists l1 l2,
        l = l1 ++ x :: l2 /\ Forall (fun y => f y = false) l1 /\ f x = true
  | None => Forall (fun y => f y = false) l
  end.
Proof.
  induction l as [|y l IH]; simpl.
  - constructor.
  - destruct (f y) eqn:Hy.
    + exists [], l; auto.
    + destruct (find f l) as [x|].
      * destruct IH as (l1 & l2 & E & H1 & H2); subst l.
        exists (y :: l1), l2; auto.
      * auto.
Qed.

Lemma find_first_match (keyword : string) (l : list BehaviorRating) :
  Spec.first_match keyword l
    (find (fun b => JS.RegExp_test_i keyword (capacity b)) l).
Proof.
  pose proof (find_first (fun b => JS.RegExp_test_i keyword (capacity b)) l)
    as H.
  destruct (find _ l) as [r|].
  - destruct H as (l1 & l2 & E & H1 & H2); subst l.
    constructor.
    + eapply Forall_impl; [|exact H1].
      intros b Hb; now apply RegExp_test_i_false_iff.
    + now apply RegExp_test_i_iff.
  - constructor.
    eapply Forall_impl; [|exact H].
    intros b Hb; now apply RegExp_test_i_false_iff.
Qed.

Lemma find_points_spec (keyword : string) (l : list BehaviorRating) :
  exists found,
    Spec.first_match keyword l found /\
    Route.find_points keyword l = Spec.points_or_zero found.
Proof.
  exists (find (fun b => JS.RegExp_test_i keyword (capacity b)) l).
  split; [apply find_first_match|].
  unfold Route.find_points.
  now destruct (find _ l).
Qed.

Lemma find_points_skip (keyword : string) (l1 : list BehaviorRating)
  (r : BehaviorRating) (l2 : list BehaviorRating) :
  ~ Spec.contains_ci keyword (capacity r) ->
  Route.find_points keyword (l1 ++ r :: l2)
  = Route.find_points keyword (l1 ++ l2).
Proof.
  intros H; unfold Route.find_points.
  rewrite find_app_skip; [reflexivity|].
  now apply RegExp_test_i_false_iff.
Qed.

(* ================================================================== *)
(** ** The capacity normalizer *)

(** C2. For every list of behaviour ratings the normalizer returns the
    five canonical capacities in their fixed order; the points of each are
    those of the first rating whose label contains the capacity's keyword
    as a case-insensitive substring, and 0 when no rating does.  A rating
    that no keyword recognises changes nothing, and the empty list gives
    five zeros. *)
Theorem normalizedRatings_first_match :
  (forall l : list BehaviorRating,
      exists f1 f2 f3 f4 f5,
        Spec.first_match "institutional" l f1 /\
        Spec.first_match "collaboration" l f2 /\
        Spec.first_match "professionalism" l f3 /\
        Spec.first_match "client" l f4 /\
        Spec.first_match "achieving" l f5 /\
        Route.normalizedRatings l =
          [ mkRating "Institutional Commitment" (Spec.points_or_zero f1);
            mkRating "Collaboration & Teamwork" (Spec.points_or_zero f2);
            mkRating "Professionalism" (Spec.points_or_zero f3);
            mkRating "Client Service" (Spec.points_or_zero f4);
            mkRating "Achieving Results" (Spec.points_or_zero f5) ]) /\
  (forall l, map capacity (Route.normalizedRatings l) = Spec.canonical_labels) /\
  (forall l1 r l2,
      Spec.unrecognized (capacity r) ->
      Route.normalizedRatings (l1 ++ r :: l2)
      = Route.normalizedRatings (l1 ++ l2)) /\
  (forall l,
      Forall (fun r => Spec.unrecognized (capacity r)) l ->
      map points (Route.normalizedRatings l) = repeat 0%float 5) /\
  map points (Route.normalizedRatings []) = repeat 0%float 5.
Proof.
  split; [|split; [|split; [|split]]].
  - intros l.
    destruct (find_points_spec "institutional" l) as (f1 & H1 & E1).
    destruct (find_points_spec "collaboration" l) as (f2 & H2 & E2).
    destruct (find_points_spec "professionalism" l) as (f3 & H3 & E3).
    destruct (find_points_spec "client" l) as (f4 & H4 & E4).
    destruct (find_points_spec "achieving" l) as (f5 & H5 & E5).
    exists f1, f2, f3, f4, f5.
    unfold Route.normalizedRatings.
    rewrite E1, E2, E3, E4, E5; auto 10.
  - reflexivity.
  - intros l1 r l2 (H1 & H2 & H3 & H4 & H5).
    unfold Route.normalizedRatings.
    now rewrite !find_points_skip by assumption.
  - intros l H.
    induction l as [|r l IH]; [reflexivity|].
    inversion H as [|? ? Hr Hl]; subst.
    destruct Hr as (H1 & H2 & H3 & H4 & H5).
    rewrite <- (IH Hl).
    unfold Route.normalizedRatings; simpl map.
    now rewrite !(find_points_skip _ [] r l) by assumption.
  - reflexivity.
Qed.

(** C8. The normalizer is idempotent: its five entries carry the
    canonical labels, each of which contains its own keyword up to case
    and is the first of the five to do so, so a second pass finds the same
    points again. *)
Theorem normalizedRatings_idempotent :
  (forall l : list BehaviorRating,
      Route.normalizedRatings (Route.normalizedRatings l)
      = Route.normalizedRatings l) /\
  Forall2 Spec.contains_ci
    ["institutional"; "collaboration"; "professionalism"; "client";
     "achieving"]
    Spec.canonical_labels /\
  ~ Spec.contains_ci "collaboration" "Institutional Commitment" /\
  Forall (fun label => ~ Spec.contains_ci "professionalism" label)
    (firstn 2 Spec.canonical_labels) /\
  Forall (fun label => ~ Spec.contains_ci "client" label)
    (firstn 3 Spec.canonical_labels) /\
  Forall (fun label => ~ Spec.contains_ci "achieving" label)
    (firstn 4 Spec.canonical_labels).
Proof.
  split.
  - intros l.
    unfold Route.normalizedRatings.
    generalize (Route.find_points "institutional" l)
               (Route.find_points "collaboration" l)
               (Route.find_points "professionalism" l)
               (Route.find_points "client" l)
               (Route.find_points "achieving" l).
    intros p1 p2 p3 p4 p5.
    reflexivity.
  - unfold Spec.canonical_labels; cbn [firstn].
    repeat split;
      repeat (constructor;
              try (apply RegExp_test_i_iff; reflexivity);
              try (apply RegExp_test_i_false_iff; reflexivity)).
    apply RegExp_test_i_false_iff; reflexivity.
Qed.

(* ================================================================== *)
(** ** The evaluation selector and the batch *)

(** C3. An appraisal without evaluations gets an [evaluation] object all
    the same: total score and the four category points are 0 and the
    ratings are the five canonical entries with 0 points.  With at least
    one evaluation, the one at index 0 is shown and the older ones play no
    part. *)
Theorem withEvaluation_latest_or_zero :
  (forall i st name endDate,
      Route.evaluation
        (Route.withEvaluation (Route.mkAppraisal i st name endDate []))
      = Route.mkView (Some 0%float) (Some 0%float) (Some 0%float)
          (Some 0%float) (Some 0%float)
          [ mkRating "Institutional Commitment" 0%float;
            mkRating "Collaboration & Teamwork" 0%float;
            mkRating "Professionalism" 0%float;
            mkRating "Client Service" 0%float;
            mkRating "Achieving Results" 0%float ]) /\
  (forall i st name endDate latest older,
      Route.evaluation
        (Route.withEvaluation
           (Route.mkAppraisal i st name endDate (latest :: older)))
      = Route.mkView (Route.eval_totalScore latest)
          (Route.eval_researchPts latest)
          (Route.eval_universityServicePts latest)
          (Route.eval_communityServicePts latest)
          (Route.eval_teachingQualityPts latest)
          (Route.normalizedRatings (Route.eval_behaviorRatings latest))).
Proof. split; reflexivity. Qed.

(** C9. The batch keeps the order of its input: the output has the
    length of the input, its entry at every index is the view of the
    input's entry at that index and carries that appraisal, and it is
    determined by that entry alone. *)
Theorem appraisalsWithEvaluation_keeps_order :
  (forall appraisals,
      List.length (Route.appraisalsWithEvaluation appraisals)
      = List.length appraisals) /\
  (forall appraisals i,
      nth_error (Route.appraisalsWithEvaluation appraisals) i
      = option_map Route.withEvaluation (nth_error appraisals i)) /\
  (forall appraisals,
      map Route.spread (Route.appraisalsWithEvaluation appraisals)
      = appraisals) /\
  (forall A B C,
      Route.appraisalsWithEvaluation [A; B; C]
      = [Route.withEvaluation A; Route.withEvaluation B;
         Route.withEvaluation C]) /\
  (forall appraisals appraisals' i,
      nth_error appraisals i = nth_error appraisals' i ->
      nth_error (Route.appraisalsWithEvaluation appraisals) i
      = nth_error (Route.appraisalsWithEvaluation appraisals') i).
Proof.
  unfold Route.appraisalsWithEvaluation.
  split; [|split; [|split; [|split]]].
  - intros l; apply length_map.
  - intros l i; apply nth_error_map.
  - intros l; induction l as [|a l IH]; simpl; [reflexivity|].
    now rewrite IH.
  - reflexivity.
  - intros l l' i H; now rewrite !nth_error_map, H.
Qed.

(* ================================================================== *)
(** ** Rounding to two decimals *)


Lemma nearest_hundredths_exact (m : positive) (e : Z) :
  0 <= e -> JS.nearest_hundredths m e = 100 * Zpos m * 2 ^ e.
Proof. destruct e; [reflexivity|reflexivity|lia]. Qed.

(** What [+x.toFixed(2)] gives on some numbers, as a JavaScript engine
    prints them: 1.005 is stored below 1.005 and goes to 1, 8.345 is
    stored above and goes to 8.35, 0.015 goes to 0.01, 2.5 stays, a small
    negative number goes to negative zero, and from 10^21 on the number is
    returned as it is. *)
Example round2_examples :
  JS.round2 (1005 / 1000)%float = 1%float /\
  JS.round2 (8345 / 1000)%float = (835 / 100)%float /\
  JS.round2 (15 / 1000)%float = (1 / 100)%float /\
  JS.round2 2.5%float = 2.5%float /\
  JS.round2 (-1 / 1000)%float = (-0)%float /\
  JS.round2 (-0)%float = 0%float /\
  JS.round2 1e21%float = 1e21%float /\
  JS.round2 infinity = infinity /\
  JS.round2 nan = nan.
Proof. vm_compute; repeat split; reflexivity. Qed.

(* ================================================================== *)
(** ** The CSV export *)

Lemma exportCSV_rows (appraisals : list Table.AppraisalWithDetails)
  (rows : list (list (string * Table.Cell))) :
  Table.exportCSV (Some appraisals) = Some rows ->
  rows = map Table.exportRow appraisals.
Proof.
  destruct appraisals; simpl; [discriminate|].
  now intros [= <-].
Qed.

Lemma float_neq (x y : float) :
  PrimFloat.eqb x y = false -> PrimFloat.eqb y y = true -> x <> y.
Proof. intros H1 H2 E; subst; congruence. Qed.

Lemma getPoints_skip (l1 : list BehaviorRating) (r : BehaviorRating)
  (l2 : list BehaviorRating) (c : string) :
  capacity r <> c ->
  Table.getPoints (l1 ++ r :: l2) c = Table.getPoints (l1 ++ l2) c.
Proof.
  intros H; unfold Table.getPoints.
  rewrite find_app_skip; [reflexivity|].
  now apply String.eqb_neq.
Qed.

Lemma getPoints_unmatched (l : list BehaviorRating) (c : string) :
  (forall r, In r l -> capacity r <> c) ->
  Table.getPoints l c = 0%float.
Proof.
  intros H; unfold Table.getPoints.
  destruct (find _ l) as [r|] eqn:E; [|reflexivity].
  apply find_some in E as [Hin Heq].
  apply String.eqb_eq in Heq.
  now destruct (H r Hin).
Qed.




Lemma find_first_labelled (label : string) (l : list BehaviorRating) :
  Spec.first_labelled label l
    (find (fun r => String.eqb (capacity r) label) l).
Proof.
  pose proof (find_first (fun r => String.eqb (capacity r) label) l) as H.
  destruct (find _ l) as [r|].
  - destruct H as (l1 & l2 & E & H1 & H2); subst l.
    constructor.
    + eapply Forall_impl; [|exact H1].
      intros r' Hr'; now apply String.eqb_neq.
    + now apply String.eqb_eq.
  - constructor.
    eapply Forall_impl; [|exact H].
    intros r' Hr'; now apply String.eqb_neq.
Qed.

Lemma first_labelled_unique (label : string) (l : list BehaviorRating)
  (f f' : option BehaviorRating) :
  Spec.first_labelled label l f -> Spec.first_labelled label l f' -> f = f'.
Proof.
  assert (Hfind : forall g, Spec.first_labelled label l g ->
            g = find (fun r => String.eqb (capacity r) label) l).
  { intros g Hg; destruct Hg as [l0 H|l1 r l2 H1 H2].
    - induction H as [|r l0 Hr H IH]; [reflexivity|].
      cbn [find]; apply String.eqb_neq in Hr; now rewrite Hr.
    - induction H1 as [|r' l1 Hr' H1 IH]; cbn [app find].
      + apply String.eqb_eq in H2; now rewrite H2.
      + apply String.eqb_neq in Hr'; now rewrite Hr'. }
  intros H1 H2; now rewrite (Hfind f H1), (Hfind f' H2).
Qed.

Lemma getPoints_first_labelled (label : string) (l : list BehaviorRating) :
  exists found,
    Spec.first_labelled label l found /\
    Table.getPoints l label = Spec.points_or_zero found.
Proof.
  exists (find (fun r => String.eqb (capacity r) label) l).
  split; [apply find_first_labelled|].
  unfold Table.getPoints.
  now destruct (find _ l).
Qed.

Lemma ratings_row_ratings (a : Table.AppraisalWithDetails) :
  Table.ratings a = Spec.row_ratings a.
Proof. destruct a as [st name endDate ts [[[l|] tot re un co te]|]]; reflexivity. Qed.

(** C5. The raw performance is the plain sum of the four category
    points of the row's evaluation, each read as 0 when absent.  The raw
    capabilities are the plain sum of five point values: for each of the
    five canonical labels, in their order, the points of the first rating
    of the row's evaluation that has this label, 0 when there is none; for
    a row whose ratings are those of the normalizer they are the
    normalizer's five point values.  Nothing is divided, averaged or
    rounded: points of 10, 20, 30, 40 and 50 give 150, whatever the order
    of the ratings and whatever other ratings stand among them. *)
Theorem raw_totals_are_plain_sums :
  (forall a,
      Table.rawPerformance a
      = Spec.plain_sum
          [ Spec.or_zero (JS.optchain_opt (Table.evaluation a)
                            Table.researchPts);
            Spec.or_zero (JS.optchain_opt (Table.evaluation a)
                            Table.universityServicePts);
            Spec.or_zero (JS.optchain_opt (Table.evaluation a)
                            Table.communityServicePts);
            Spec.or_zero (JS.optchain_opt (Table.evaluation a)
                            Table.teachingQualityPts) ]) /\
  (forall a,
      exists f1 f2 f3 f4 f5,
        Spec.first_labelled "Institutional Commitment"
          (Spec.row_ratings a) f1 /\
        Spec.first_labelled "Collaboration & Teamwork"
          (Spec.row_ratings a) f2 /\
        Spec.first_labelled "Professionalism" (Spec.row_ratings a) f3 /\
        Spec.first_labelled "Client Service" (Spec.row_ratings a) f4 /\
        Spec.first_labelled "Achieving Results" (Spec.row_ratings a) f5 /\
        Table.rawCapabilities a
        = Spec.plain_sum (map Spec.points_or_zero [f1; f2; f3; f4; f5])) /\
  (forall label l f f',
      Spec.first_labelled label l f -> Spec.first_labelled label l f' ->
      f = f') /\
  (forall st name endDate ts tot re un co te l,
      Table.rawCapabilities
        (Table.mkAppraisal st name endDate ts
           (Some (Table.mkEvaluation (Some (Route.normalizedRatings l))
                    tot re un co te)))
      = Spec.plain_sum (map points (Route.normalizedRatings l))) /\
  (forall st name endDate ts tot,
      let a :=
        Table.mkAppraisal st name endDate ts
          (Some (Table.mkEvaluation
                   (Some [ mkRating "Achieving Results" 50%float;
                           mkRating "Punctuality" 5%float;
                           mkRating "Client Service" 40%float;
                           mkRating "Professionalism" 30%float;
                           mkRating "Institutional Commitment" 10%float;
                           mkRating "Institutional Commitment" 60%float;
                           mkRating "Collaboration & Teamwork" 20%float ])
                   tot (Some 1%float) (Some 2%float) (Some 3%float)
                   (Some 4.5%float))) in
      Table.rawPerformance a = 10.5%float /\
      Table.rawCapabilities a = 150%float) /\
  (forall st name endDate ts tot re un co te,
      Table.rawCapabilities
        (Table.mkAppraisal st name endDate ts
           (Some (Table.mkEvaluation None tot re un co te)))
      = 0%float /\
      Table.rawCapabilities (Table.mkAppraisal st name endDate ts None)
      = 0%float /\
      Table.rawPerformance (Table.mkAppraisal st name endDate ts None)
      = 0%float).
Proof.
  split; [|split; [|split; [|split; [|split]]]].
  - intros [st name endDate ts [e|]]; reflexivity.
  - intros a.
    destruct (getPoints_first_labelled "Institutional Commitment"
                (Spec.row_ratings a)) as (f1 & H1 & E1).
    destruct (getPoints_first_labelled "Collaboration & Teamwork"
                (Spec.row_ratings a)) as (f2 & H2 & E2).
    destruct (getPoints_first_labelled "Professionalism"
                (Spec.row_ratings a)) as (f3 & H3 & E3).
    destruct (getPoints_first_labelled "Client Service"
                (Spec.row_ratings a)) as (f4 & H4 & E4).
    destruct (getPoints_first_labelled "Achieving Results"
                (Spec.row_ratings a)) as (f5 & H5 & E5).
    exists f1, f2, f3, f4, f5; repeat (split; [assumption|]).
    unfold Table.rawCapabilities.
    rewrite ratings_row_ratings, E1, E2, E3, E4, E5.
    reflexivity.
  - apply first_labelled_unique.
  - intros st name endDate ts tot re un co te l.
    unfold Table.rawCapabilities, Table.ratings, Table.evalData;
      cbn [Table.evaluation JS.nullish Table.behaviorRatings].
    unfold Route.normalizedRatings.
    generalize (Route.find_points "institutional" l)
               (Route.find_points "collaboration" l)
               (Route.find_points "professionalism" l)
               (Route.find_points "client" l)
               (Route.find_points "achieving" l).
    intros p1 p2 p3 p4 p5.
    reflexivity.
  - intros; vm_compute; split; reflexivity.
  - intros; vm_compute; repeat split; reflexivity.
Qed.

(** C6, as the specification words it, fails: nine keys of the row end
    in a space and one has a space after its opening parenthesis. *)
Lemma exportRow_keys_not_as_listed :
  map fst (Table.exportRow (Table.mkAppraisal NEW "A" 0 None None))
  <> Spec.csv_columns.
Proof. vm_compute; intros H; discriminate H. Qed.

(** C6, amended. Every export row has exactly these fifteen keys, in
    this order, each written as here (with the trailing spaces), and no
    key occurs twice. *)
Theorem exportRow_keys (a : Table.AppraisalWithDetails) :
  map fst (Table.exportRow a)
  = [ "Instructor"; "Research & Scientific Activities ";
      "University Service "; "Community Service "; "Quality of Teaching ";
      "Total Performance (out of 100)"; "Total Performance (out of 3)";
      "Institutional Commitment "; "Collaboration & Teamwork ";
      "Professionalism "; "Client Service "; "Achieving Results ";
      "Total Capabilities ( out of 100)"; "Total Capabilities (out of 7)";
      "Overall Total (out of 5)" ] /\
  NoDup (map fst (Table.exportRow a)).
Proof.
  split; [reflexivity|].
  simpl map.
  repeat (constructor;
          [ simpl; intros H;
            repeat (destruct H as [H|H]; [discriminate H|]); exact H | ]).
  constructor.
Qed.

(** C10. The export looks a capacity up by strict equality of the
    labels.  A rating whose label is not the label asked for never
    answers the lookup; removing a rating whose label is none of the five
    canonical ones leaves the whole row unchanged; and a rating labelled
    "institutional commitment" exports 0 although the normalizer reads it
    as 50. *)
Theorem getPoints_exact_equality :
  (forall l c,
      (forall r, In r l -> capacity r <> c) ->
      Table.getPoints l c = 0%float) /\
  (forall l1 r l2 c,
      capacity r <> c ->
      Table.getPoints (l1 ++ r :: l2) c = Table.getPoints (l1 ++ l2) c) /\
  (forall st name endDate ts tot re un co te l1 r l2,
      ~ In (capacity r) Spec.canonical_labels ->
      Table.exportRow
        (Table.mkAppraisal st name endDate ts
           (Some (Table.mkEvaluation (Some (l1 ++ r :: l2)) tot re un co te)))
      = Table.exportRow
          (Table.mkAppraisal st name endDate ts
             (Some (Table.mkEvaluation (Some (l1 ++ l2)) tot re un co te)))) /\
  (forall st name endDate ts tot re un co te l,
      (forall r, In r l -> ~ In (capacity r) Spec.canonical_labels) ->
      Table.rawCapabilities
        (Table.mkAppraisal st name endDate ts
           (Some (Table.mkEvaluation (Some l) tot re un co te)))
      = 0%float) /\
  (Table.getPoints [mkRating "institutional commitment" 50%float]
     "Institutional Commitment" = 0%float /\
   Route.find_points "institutional"
     [mkRating "institutional commitment" 50%float] = 50%float).
Proof.
  split; [|split; [|split; [|split]]].
  - apply getPoints_unmatched.
  - apply getPoints_skip.
  - intros st name endDate ts tot re un co te l1 r l2 H.
    assert (E : forall c, In c Spec.canonical_labels ->
                          Table.getPoints (l1 ++ r :: l2) c
                          = Table.getPoints (l1 ++ l2) c).
    { intros c Hc; apply getPoints_skip; congruence. }
    unfold Table.exportRow, Table.overallTotalScaled,
      Table.totalCapabilitiesScaled, Table.rawCapabilities.
    cbn [Table.ratings Table.evalData Table.evaluation Table.behaviorRatings
         JS.nullish].
    rewrite !E by (simpl; tauto).
    reflexivity.
  - intros st name endDate ts tot re un co te l H.
    assert (E : forall c, In c Spec.canonical_labels ->
                          Table.getPoints l c = 0%float).
    { intros c Hc; apply getPoints_unmatched.
      intros r Hr Heq; apply (H r Hr); congruence. }
    unfold Table.rawCapabilities.
    cbn [Table.ratings Table.evalData Table.evaluation Table.behaviorRatings
         JS.nullish].
    rewrite !E by (simpl; tauto).
    reflexivity.
  - split; reflexivity.
Qed.

(* ================================================================== *)
(** ** Gaps in the input *)

(** C7, as the specification words it, fails for the total score: when
    the evaluation has none, [fetchData] shows the appraisal's own
    [totalScore], here 55, and not 0. *)
Lemma missing_totalScore_is_not_always_zero :
  ~ (forall a,
        JS.optchain_opt (Table.evaluation a) Table.totalScore = None ->
        JS.optchain_opt (Table.evaluation (Table.withEval a)) Table.totalScore
        = Some 0%float).
Proof.
  intros H.
  specialize
    (H (Table.mkAppraisal SENT "A" 0 (Some 55%float)
          (Some (Table.mkEvaluation None None None None None None)))
       eq_refl).
  apply (f_equal Spec.or_zero) in H; simpl in H.
  revert H; apply float_neq; reflexivity.
Qed.

(** C7, amended. The completed appraisal always has an evaluation with
    every field present.  A missing category point is 0 and missing
    ratings are the empty list; a missing total score is the appraisal's
    own total score when it has one and 0 otherwise.  Whatever is present
    is kept.  In the export a missing evaluation or category point counts
    as 0 and a capacity without a rating of that label is 0.  All of these
    are total functions: no input makes them fail. *)
Theorem withEval_fills_gaps :
  (forall a,
      Table.evaluation (Table.withEval a)
      = Some
          (Table.mkEvaluation
             (Some
                match JS.optchain_opt (Table.evaluation a)
                        Table.behaviorRatings with
                | Some l => l
                | None => []
                end)
             (Some
                match JS.optchain_opt (Table.evaluation a)
                        Table.totalScore with
                | Some v => v
                | None => Spec.or_zero (Table.appraisal_totalScore a)
                end)
             (Some (Spec.or_zero
                      (JS.optchain_opt (Table.evaluation a)
                         Table.researchPts)))
             (Some (Spec.or_zero
                      (JS.optchain_opt (Table.evaluation a)
                         Table.universityServicePts)))
             (Some (Spec.or_zero
                      (JS.optchain_opt (Table.evaluation a)
                         Table.communityServicePts)))
             (Some (Spec.or_zero
                      (JS.optchain_opt (Table.evaluation a)
                         Table.teachingQualityPts))))) /\
  (forall st name endDate ts,
      Table.evaluation
        (Table.withEval (Table.mkAppraisal st name endDate ts None))
      = Some
          (Table.mkEvaluation (Some []) (Some (Spec.or_zero ts))
             (Some 0%float) (Some 0%float) (Some 0%float) (Some 0%float))) /\
  (forall st name endDate ts,
      map snd (Table.exportRow (Table.mkAppraisal st name endDate ts None))
      = Table.CellString name :: repeat (Table.CellNumber 0%float) 14) /\
  (forall l c,
      (forall r, In r l -> capacity r <> c) ->
      Table.getPoints l c = 0%float).
Proof.
  split; [|split; [|split]].
  - intros [st name endDate ts [e|]]; reflexivity.
  - reflexivity.
  - intros; vm_compute; reflexivity.
  - apply getPoints_unmatched.
Qed.

(* ================================================================== *)
(** ** The eligibility gate *)

(** *** The calendar functions do what ECMAScript asks of them *)

Lemma DayFromYear_succ (y : Z) :
  JS.DayFromYear (y + 1) = JS.DayFromYear y + JS.DaysInYear y.
Proof.
  unfold JS.DayFromYear, JS.DaysInYear.
  destruct (Z.eqb_spec (y mod 4) 0), (Z.eqb_spec (y mod 100) 0),
    (Z.eqb_spec (y mod 400) 0); cbn [negb];
    Z.div_mod_to_equations; lia.
Qed.

Lemma DaysInYear_bounds (y : Z) : 365 <= JS.DaysInYear y <= 366.
Proof.
  unfold JS.DaysInYear.
  destruct (negb _); [lia|]; destruct (negb _); [lia|]; destruct (negb _); lia.
Qed.

Lemma DayFromYear_lt (y y' : Z) :
  y < y' -> JS.DayFromYear y < JS.DayFromYear y'.
Proof.
  unfold JS.DayFromYear; intros H.
  Z.div_mod_to_equations; lia.
Qed.

Lemma year_search_spec (fuel : nat) (y d : Z) :
  d < JS.DayFromYear (y + 1) ->
  JS.DayFromYear (y - Z.of_nat fuel) <= d ->
  JS.DayFromYear (JS.year_search fuel y d) <= d
  < JS.DayFromYear (JS.year_search fuel y d + 1).
Proof.
  revert y; induction fuel as [|fuel IH]; intros y Hhi Hlo.
  - simpl in *; rewrite Z.sub_0_r in Hlo; lia.
  - cbn [JS.year_search].
    destruct (Z.leb_spec (JS.DayFromYear y) d) as [H|H]; [lia|].
    apply IH.
    + now replace (y - 1 + 1) with y by lia.
    + now replace (y - 1 - Z.of_nat fuel) with (y - Z.of_nat (S fuel)) by lia.
Qed.

(** YearFromTime: "the largest integer y such that TimeFromYear(y) <= t",
    for every day of the range of time values. *)
Lemma YearFromDay_spec (d : Z) :
  -100001000 <= d <= 100001000 ->
  JS.DayFromYear (JS.YearFromDay d) <= d
  < JS.DayFromYear (JS.YearFromDay d + 1).
Proof.
  intros H; unfold JS.YearFromDay.
  apply year_search_spec.
  - unfold JS.DayFromYear.
    destruct (Z.leb_spec 0 d); Z.div_mod_to_equations; lia.
  - change (Z.of_nat 1000) with 1000.
    unfold JS.DayFromYear.
    destruct (Z.leb_spec 0 d); Z.div_mod_to_equations; lia.
Qed.

Lemma YearFromDay_unique (d y : Z) :
  -100001000 <= d <= 100001000 ->
  JS.DayFromYear y <= d < JS.DayFromYear (y + 1) ->
  JS.YearFromDay d = y.
Proof.
  intros Hd Hy.
  pose proof (YearFromDay_spec d Hd) as Hs.
  destruct (Z.lt_trichotomy (JS.YearFromDay d) y) as [H|[H|H]];
    [|assumption|].
  - assert (JS.YearFromDay d + 1 <= y) as H' by lia.
    apply Z.le_lteq in H' as [H'|H'].
    + pose proof (DayFromYear_lt _ _ H'); lia.
    + rewrite H' in Hs; lia.
  - assert (y + 1 <= JS.YearFromDay d) as H' by lia.
    apply Z.le_lteq in H' as [H'|H'].
    + pose proof (DayFromYear_lt _ _ H'); lia.
    + rewrite <- H' in Hs; lia.
Qed.

Lemma TimeClip_in_range (t : Z) :
  Z.abs t <= 8640000000000000 -> JS.TimeClip t = Some t.
Proof.
  intros H; unfold JS.TimeClip.
  destruct (Z.ltb_spec 8640000000000000 (Z.abs t)); [lia|reflexivity].
Qed.

Lemma TimeClip_Some (t u : Z) :
  JS.TimeClip t = Some u -> u = t /\ Z.abs t <= 8640000000000000.
Proof.
  unfold JS.TimeClip.
  destruct (Z.ltb_spec 8640000000000000 (Z.abs t)); [discriminate|].
  intros [= <-]; auto.
Qed.

Lemma Day_of_day (d : Z) : JS.Day (d * JS.msPerDay) = d.
Proof. unfold JS.Day, JS.msPerDay; now rewrite Z.div_mul. Qed.

Lemma Day_bounds (t d : Z) :
  JS.Day t = d <-> d * JS.msPerDay <= t < (d + 1) * JS.msPerDay.
Proof.
  unfold JS.Day, JS.msPerDay.
  pose proof (Z.div_mod t 86400000 ltac:(lia)).
  pose proof (Z.mod_pos_bound t 86400000 ltac:(lia)).
  split; intros; [subst d|]; nia.
Qed.

Lemma MonthFromTime_Day (t : Z) :
  JS.MonthFromTime t = JS.MonthFromTime (JS.Day t * JS.msPerDay).
Proof.
  unfold JS.MonthFromTime, JS.DayWithinYear, JS.InLeapYear, JS.YearFromTime.
  now rewrite Day_of_day.
Qed.

Lemma DateFromTime_Day (t : Z) :
  JS.DateFromTime t = JS.DateFromTime (JS.Day t * JS.msPerDay).
Proof.
  unfold JS.DateFromTime.
  rewrite (MonthFromTime_Day t).
  unfold JS.DayWithinYear, JS.InLeapYear, JS.YearFromTime.
  now rewrite Day_of_day.
Qed.

(** MakeDay: the day it starts from is the first of the month asked
    for, in the year asked for. *)
Lemma first_day_of_month_spec (ym mn : Z) :
  0 <= mn < 12 ->
  -270000 <= ym <= 270000 ->
  JS.YearFromTime (JS.first_day_of_month ym mn * JS.msPerDay) = ym /\
  JS.MonthFromTime (JS.first_day_of_month ym mn * JS.msPerDay) = mn /\
  JS.DateFromTime (JS.first_day_of_month ym mn * JS.msPerDay) = 1.
Proof.
  intros Hmn Hym.
  pose proof (DayFromYear_succ ym) as Hsucc.
  pose proof (DaysInYear_bounds ym) as Hdays.
  assert (Hrange : -99500000 <= JS.DayFromYear ym <= 99500000).
  { unfold JS.DayFromYear; Z.div_mod_to_equations; lia. }
  assert (Hoff : exists off,
             JS.first_day_of_month ym mn = JS.DayFromYear ym + off /\
             0 <= off < 365 /\
             off = JS.first_day_of_month ym mn - JS.DayFromYear ym).
  { exists (JS.first_day_of_month ym mn - JS.DayFromYear ym).
    split; [lia|]; split; [|reflexivity].
    unfold JS.first_day_of_month.
    assert (Hcases : mn = 0 \/ mn = 1 \/ mn = 2 \/ mn = 3 \/ mn = 4 \/ mn = 5
                     \/ mn = 6 \/ mn = 7 \/ mn = 8 \/ mn = 9 \/ mn = 10
                     \/ mn = 11) by lia.
    destruct (JS.DaysInYear ym =? 366);
      repeat (destruct Hcases as [Hcases|Hcases]); subst mn;
      cbv iota beta; lia. }
  destruct Hoff as (off & Hd & Hoff & Eoff).
  assert (Hyear : JS.YearFromDay (JS.first_day_of_month ym mn) = ym).
  { apply YearFromDay_unique; lia. }
  unfold JS.DateFromTime, JS.MonthFromTime, JS.DayWithinYear, JS.InLeapYear,
    JS.YearFromTime.
  rewrite Day_of_day, Hyear, <- Eoff.
  split; [reflexivity|].
  clear Hd Hyear Hrange Hsucc.
  unfold JS.first_day_of_month in Eoff.
  destruct (JS.DaysInYear ym =? 366);
    assert (Hcases : mn = 0 \/ mn = 1 \/ mn = 2 \/ mn = 3 \/ mn = 4 \/ mn = 5
                     \/ mn = 6 \/ mn = 7 \/ mn = 8 \/ mn = 9 \/ mn = 10
                     \/ mn = 11) by lia;
    repeat (destruct Hcases as [Hcases|Hcases]);
    subst mn; cbv iota beta in Eoff;
    (replace off with (off + 0) by lia);
    match type of Eoff with
    | _ = ?a + ?k - ?a => replace off with k by lia
    end; split; reflexivity.
Qed.

(** *** The calendar functions agree with the civil calendar *)

Lemma DaysInYear_days_in_year (y : Z) :
  JS.DaysInYear y = Spec.days_in_year y.
Proof.
  unfold JS.DaysInYear, Spec.days_in_year, Spec.is_leap_year.
  destruct (Z.eqb_spec (y mod 4) 0), (Z.eqb_spec (y mod 100) 0),
    (Z.eqb_spec (y mod 400) 0); cbn; try reflexivity;
    exfalso; Z.div_mod_to_equations; lia.
Qed.

Lemma leap_flag (y : Z) :
  (if JS.DaysInYear y =? 366 then 1 else 0)
  = (if Spec.is_leap_year y then 1 else 0).
Proof.
  rewrite DaysInYear_days_in_year; unfold Spec.days_in_year.
  now destruct (Spec.is_leap_year y).
Qed.

Lemma DayFromYear_from_1970 (n : nat) :
  JS.DayFromYear (1970 + Z.of_nat n) = Spec.days_of_years_from_1970 n.
Proof.
  induction n as [|n IH]; [reflexivity|].
  replace (1970 + Z.of_nat (S n)) with (1970 + Z.of_nat n + 1) by lia.
  rewrite DayFromYear_succ, IH, DaysInYear_days_in_year.
  reflexivity.
Qed.

Lemma DayFromYear_before_1970 (n : nat) :
  JS.DayFromYear (1970 - Z.of_nat n) = - Spec.days_of_years_before_1970 n.
Proof.
  induction n as [|n IH]; [reflexivity|].
  cbn [Spec.days_of_years_before_1970].
  pose proof (DayFromYear_succ (1969 - Z.of_nat n)) as H.
  replace (1969 - Z.of_nat n + 1) with (1970 - Z.of_nat n) in H by lia.
  rewrite IH, DaysInYear_days_in_year in H.
  replace (1970 - Z.of_nat (S n)) with (1969 - Z.of_nat n) by lia.
  lia.
Qed.

(** DayFromYear counts the days of the years between 1970 and [y]. *)
Lemma DayFromYear_first_day_of_year (y : Z) :
  JS.DayFromYear y = Spec.first_day_of_year y.
Proof.
  unfold Spec.first_day_of_year.
  destruct (Z.leb_spec 1970 y).
  - rewrite <- DayFromYear_from_1970; f_equal; lia.
  - rewrite <- DayFromYear_before_1970; f_equal; lia.
Qed.

Lemma first_day_of_year_succ (y : Z) :
  Spec.first_day_of_year (y + 1)
  = Spec.first_day_of_year y + Spec.days_in_year y.
Proof.
  rewrite <- !DayFromYear_first_day_of_year, <- DaysInYear_days_in_year.
  apply DayFromYear_succ.
Qed.

Lemma days_before_month_table (y : Z) :
  let leap := if Spec.is_leap_year y then 1 else 0 in
  Spec.days_before_month y 0 = 0 /\
  Spec.days_before_month y 1 = 31 /\
  Spec.days_before_month y 2 = 59 + leap /\
  Spec.days_before_month y 3 = 90 + leap /\
  Spec.days_before_month y 4 = 120 + leap /\
  Spec.days_before_month y 5 = 151 + leap /\
  Spec.days_before_month y 6 = 181 + leap /\
  Spec.days_before_month y 7 = 212 + leap /\
  Spec.days_before_month y 8 = 243 + leap /\
  Spec.days_before_month y 9 = 273 + leap /\
  Spec.days_before_month y 10 = 304 + leap /\
  Spec.days_before_month y 11 = 334 + leap.
Proof.
  unfold Spec.days_before_month, Spec.days_in_month.
  destruct (Spec.is_leap_year y); vm_compute; repeat split; reflexivity.
Qed.

Ltac month_cases m :=
  let H := fresh "Hcases" in
  assert (H : m = 0 \/ m = 1 \/ m = 2 \/ m = 3 \/ m = 4 \/ m = 5
              \/ m = 6 \/ m = 7 \/ m = 8 \/ m = 9 \/ m = 10 \/ m = 11)
    by lia;
  repeat (destruct H as [H|H]); subst m.

Lemma first_day_of_month_civil (y m : Z) :
  0 <= m < 12 -> JS.first_day_of_month y m = Spec.civil_day y m 1.
Proof.
  intros Hm.
  unfold JS.first_day_of_month, Spec.civil_day; cbv zeta.
  rewrite leap_flag, DayFromYear_first_day_of_year.
  pose proof (days_before_month_table y) as T; cbv zeta in T.
  destruct T as (T0 & T1 & T2 & T3 & T4 & T5 & T6 & T7 & T8 & T9 & T10
                 & T11).
  month_cases m; cbv iota beta; lia.
Qed.

(** MakeDay with the month lowered by one counts the days from the
    first of the previous month. *)
Lemma MakeDay_previous_month (y m d : Z) :
  0 <= m < 12 ->
  JS.MakeDay y (m - 1) d
  = Spec.civil_day (fst (Spec.previous_month y m))
      (snd (Spec.previous_month y m)) d.
Proof.
  intros Hm; unfold JS.MakeDay, Spec.previous_month; cbv zeta.
  destruct (Z.eqb_spec m 0) as [->|Hne]; cbn [fst snd].
  - change ((0 - 1) / 12) with (-1); change ((0 - 1) mod 12) with 11.
    rewrite first_day_of_month_civil by lia.
    replace (y + -1) with (y - 1) by lia.
    unfold Spec.civil_day; lia.
  - rewrite Z.div_small, Z.mod_small, Z.add_0_r by lia.
    rewrite first_day_of_month_civil by lia.
    unfold Spec.civil_day; lia.
Qed.

(** YearFromTime, MonthFromTime and DateFromTime give the civil date of
    a time value. *)
Lemma fields_civil_date (t : Z) :
  -100001000 <= JS.Day t <= 100001000 ->
  Spec.is_civil_date (JS.Day t) (JS.YearFromTime t) (JS.MonthFromTime t)
    (JS.DateFromTime t).
Proof.
  intros Hr.
  pose proof (YearFromDay_spec _ Hr) as Hy.
  rewrite DayFromYear_succ, DaysInYear_days_in_year in Hy.
  unfold Spec.is_civil_date, Spec.civil_day, JS.DateFromTime,
    JS.MonthFromTime, JS.DayWithinYear, JS.InLeapYear, JS.YearFromTime.
  rewrite leap_flag, <- DayFromYear_first_day_of_year.
  set (Y := JS.YearFromDay (JS.Day t)) in *.
  set (o := JS.Day t - JS.DayFromYear Y).
  assert (Ho : 0 <= o < Spec.days_in_year Y) by (unfold o; lia).
  assert (Hd : JS.Day t = JS.DayFromYear Y + o) by (unfold o; lia).
  rewrite Hd; clearbody o; clear Hd Hy Hr.
  pose proof (days_before_month_table Y) as T; cbv zeta in T.
  unfold Spec.days_in_year in Ho; unfold Spec.days_in_month.
  destruct (Spec.is_leap_year Y);
    destruct T as (T0 & T1 & T2 & T3 & T4 & T5 & T6 & T7 & T8 & T9 & T10
                   & T11);
    repeat match goal with
           | |- context [?a <? ?b] => destruct (Z.ltb_spec a b)
           end;
    cbv iota beta; lia.
Qed.

Lemma civil_offset_bounds (y m d : Z) :
  0 <= m < 12 ->
  1 <= d <= Spec.days_in_month y m ->
  0 <= Spec.days_before_month y m + (d - 1) < Spec.days_in_year y.
Proof.
  intros Hm Hd.
  pose proof (days_before_month_table y) as T; cbv zeta in T.
  unfold Spec.days_in_year; unfold Spec.days_in_month in Hd.
  destruct (Spec.is_leap_year y);
    destruct T as (T0 & T1 & T2 & T3 & T4 & T5 & T6 & T7 & T8 & T9 & T10
                   & T11);
    month_cases m; cbv iota beta in Hd; lia.
Qed.

Lemma first_day_of_year_lt (y y' : Z) :
  y < y' -> Spec.first_day_of_year y < Spec.first_day_of_year y'.
Proof.
  rewrite <- !DayFromYear_first_day_of_year; apply DayFromYear_lt.
Qed.

(** A day has one civil date. *)
Lemma civil_date_unique (day y m d y' m' d' : Z) :
  Spec.is_civil_date day y m d ->
  Spec.is_civil_date day y' m' d' ->
  y = y' /\ m = m' /\ d = d'.
Proof.
  intros (Hm & Hd & E) (Hm' & Hd' & E').
  pose proof (civil_offset_bounds y m d Hm Hd) as Ho.
  pose proof (civil_offset_bounds y' m' d' Hm' Hd') as Ho'.
  pose proof (first_day_of_year_succ y) as Hs.
  pose proof (first_day_of_year_succ y') as Hs'.
  unfold Spec.civil_day in E, E'.
  assert (Hy : y = y').
  { destruct (Z.lt_trichotomy y y') as [H|[H|H]]; [|assumption|].
    - assert (H' : y + 1 <= y') by lia.
      apply Z.le_lteq in H' as [H'|H'].
      + pose proof (first_day_of_year_lt _ _ H'); lia.
      + rewrite H' in Hs; lia.
    - assert (H' : y' + 1 <= y) by lia.
      apply Z.le_lteq in H' as [H'|H'].
      + pose proof (first_day_of_year_lt _ _ H'); lia.
      + rewrite H' in Hs'; lia. }
  subst y'; split; [reflexivity|].
  clear Hs Hs' Ho Ho'.
  pose proof (days_before_month_table y) as T; cbv zeta in T.
  unfold Spec.days_in_month in Hd, Hd'.
  destruct (Spec.is_leap_year y);
    destruct T as (T0 & T1 & T2 & T3 & T4 & T5 & T6 & T7 & T8 & T9 & T10
                   & T11);
    month_cases m; month_cases m'; cbv iota beta in Hd, Hd'; lia.
Qed.

(** The first of a month comes as many days after the first of the
    previous month as that month has. *)
Lemma civil_day_previous_month (y m d : Z) :
  0 <= m < 12 ->
  Spec.civil_day (fst (Spec.previous_month y m))
    (snd (Spec.previous_month y m)) d
  = Spec.civil_day y m d
    - Spec.days_in_month (fst (Spec.previous_month y m))
        (snd (Spec.previous_month y m)).
Proof.
  intros Hm; unfold Spec.previous_month, Spec.civil_day.
  destruct (Z.eqb_spec m 0) as [->|Hne]; cbn [fst snd].
  - pose proof (first_day_of_year_succ (y - 1)) as Hs.
    replace (y - 1 + 1) with y in Hs by lia.
    pose proof (days_before_month_table (y - 1)) as T; cbv zeta in T.
    pose proof (days_before_month_table y) as T'; cbv zeta in T'.
    unfold Spec.days_in_year in Hs; unfold Spec.days_in_month.
    destruct (Spec.is_leap_year (y - 1)); cbv iota beta; lia.
  - pose proof (days_before_month_table y) as T; cbv zeta in T.
    unfold Spec.days_in_month.
    destruct (Spec.is_leap_year y);
      destruct T as (T0 & T1 & T2 & T3 & T4 & T5 & T6 & T7 & T8 & T9 & T10
                     & T11);
      month_cases m; try lia;
      match goal with
      | |- context [Zpos ?p - 1] =>
          let v := eval vm_compute in (Zpos p - 1) in
          change (Zpos p - 1) with v
      end;
      cbv iota beta; lia.
Qed.

Lemma days_in_month_bounds (y m : Z) : 28 <= Spec.days_in_month y m <= 31.
Proof.
  unfold Spec.days_in_month.
  destruct m as [|[[[|[]|]|[[]|[]|]|]|[[|[]|]|[[]|[]|]|]|]|];
    try lia; destruct (Spec.is_leap_year y); lia.
Qed.

(** *** The start of the window *)

Lemma MonthFromTime_range (t : Z) : 0 <= JS.MonthFromTime t < 12.
Proof.
  unfold JS.MonthFromTime; cbv zeta.
  repeat (destruct (_ <? _); [lia|]); lia.
Qed.

Lemma local_day_range (LocalTZA : Z -> bool -> Z) (t : Z) :
  (forall u b, - JS.msPerDay < LocalTZA u b < JS.msPerDay) ->
  Z.abs t <= 8640000000000000 ->
  -100001000 <= JS.Day (t + LocalTZA t true) <= 100001000.
Proof.
  intros Htz Ht.
  pose proof (Htz t true) as H.
  pose proof (proj1 (Day_bounds (t + LocalTZA t true) _) eq_refl) as Hb.
  unfold JS.msPerDay in *; lia.
Qed.

(** What [setMonth(getMonth() - 1)] computes. *)
Lemma setMonth_window_start (LocalTZA : Z -> bool -> Z) (t : Z) :
  JS.setMonth LocalTZA (Some t)
    (option_map (fun m => m - 1) (JS.getMonth LocalTZA (Some t)))
  = JS.TimeClip (window_start LocalTZA t).
Proof.
  cbv beta iota zeta
    delta [JS.setMonth JS.getMonth option_map JS.LocalTime JS.UTC
           window_start month_shift].
  set (local := t + LocalTZA t true).
  rewrite (MonthFromTime_Day local), (DateFromTime_Day local).
  unfold JS.YearFromTime.
  generalize (JS.MakeDay (JS.YearFromDay (JS.Day local))
                (JS.MonthFromTime (JS.Day local * JS.msPerDay) - 1)
                (JS.DateFromTime (JS.Day local * JS.msPerDay))).
  intros day.
  assert (E : JS.MakeDate day (JS.TimeWithinDay local)
              = local + (day - JS.Day local) * JS.msPerDay).
  { unfold JS.MakeDate, JS.TimeWithinDay, JS.Day, JS.msPerDay.
    pose proof (Z.div_mod local 86400000 ltac:(lia)).
    lia. }
  now rewrite E.
Qed.

Lemma month_shift_civil (t : Z) :
  -100001000 <= JS.Day t <= 100001000 ->
  month_shift (JS.Day t)
  = Spec.civil_day (fst (Spec.previous_month (JS.YearFromTime t)
                           (JS.MonthFromTime t)))
      (snd (Spec.previous_month (JS.YearFromTime t) (JS.MonthFromTime t)))
      (JS.DateFromTime t)
    - JS.Day t.
Proof.
  intros Hr; unfold month_shift.
  rewrite <- (MonthFromTime_Day t), <- (DateFromTime_Day t).
  fold (JS.YearFromTime t).
  now rewrite MakeDay_previous_month by apply MonthFromTime_range.
Qed.

Lemma window_start_one_month_before (LocalTZA : Z -> bool -> Z) (t : Z) :
  -100001000 <= JS.Day (t + LocalTZA t true) <= 100001000 ->
  Spec.one_month_before LocalTZA t (window_start LocalTZA t).
Proof.
  intros Hr; unfold Spec.one_month_before, window_start; cbv zeta.
  set (local := t + LocalTZA t true) in *.
  exists (JS.YearFromTime local), (JS.MonthFromTime local),
    (JS.DateFromTime local).
  split; [exact (fields_civil_date local Hr)|].
  rewrite (month_shift_civil local Hr).
  set (day := Spec.civil_day _ _ _).
  assert (E : local + (day - JS.Day local) * JS.msPerDay
              = day * 86400000 + local mod 86400000).
  { unfold JS.Day, JS.msPerDay.
    pose proof (Z.div_mod local 86400000 ltac:(lia)).
    lia. }
  now rewrite E.
Qed.

Lemma one_month_before_unique (LocalTZA : Z -> bool -> Z) (t start : Z) :
  -100001000 <= JS.Day (t + LocalTZA t true) <= 100001000 ->
  Spec.one_month_before LocalTZA t start ->
  start = window_start LocalTZA t.
Proof.
  intros Hr H.
  pose proof (window_start_one_month_before LocalTZA t Hr) as H'.
  generalize dependent (window_start LocalTZA t); intros start' H'.
  destruct H as (y & m & d & Hc & E), H' as (y' & m' & d' & Hc' & E').
  destruct (civil_date_unique _ _ _ _ _ _ _ Hc Hc') as (<- & <- & <-).
  congruence.
Qed.

Lemma shouldEnableEvaluation_new (LocalTZA : Z -> bool -> Z) (now : Z)
  (name : string) (endDate : Z) (ts : option float)
  (ev : option Table.Evaluation) :
  Table.shouldEnableEvaluation LocalTZA now
    (Table.mkAppraisal NEW name endDate ts ev) = true <->
  Z.abs endDate <= 8640000000000000 /\
  Z.abs (window_start LocalTZA endDate) <= 8640000000000000 /\
  window_start LocalTZA endDate <= now <= endDate.
Proof.
  unfold Table.shouldEnableEvaluation; cbn [Table.status Table.cycle_endDate].
  cbv zeta; unfold JS.new_Date.
  split.
  - destruct (JS.TimeClip endDate) as [t|] eqn:E.
    + apply TimeClip_Some in E as [-> E].
      rewrite setMonth_window_start.
      destruct (JS.TimeClip (window_start LocalTZA endDate)) as [start|] eqn:E';
        [|discriminate].
      apply TimeClip_Some in E' as [-> E'].
      simpl; rewrite andb_true_iff, !Z.leb_le.
      intros [H1 H2]; auto.
    + discriminate.
  - intros (Hr & Hr' & H1 & H2).
    rewrite (TimeClip_in_range _ Hr), setMonth_window_start,
      (TimeClip_in_range _ Hr').
    simpl; rewrite andb_true_iff, !Z.leb_le; auto.
Qed.

Lemma month_shift_June_2024 (d : Z) :
  JS.MakeDay 2024 5 29 <= d <= JS.MakeDay 2024 6 1 ->
  -31 <= month_shift d <= -30.
Proof.
  intros H.
  assert (E : d = 19903 \/ d = 19904 \/ d = 19905).
  { assert (E1 : JS.MakeDay 2024 5 29 = 19903) by (vm_compute; reflexivity).
    assert (E2 : JS.MakeDay 2024 6 1 = 19905) by (vm_compute; reflexivity).
    rewrite E1, E2 in H; lia. }
  destruct E as [E|[E|E]]; subst d; vm_compute; split; discriminate.
Qed.

Lemma New_York_bounds (t : Z) (b : bool) :
  - JS.msPerDay < Spec.New_York t b < JS.msPerDay.
Proof.
  unfold Spec.New_York, JS.msPerDay.
  destruct (Spec.New_York_dst t b); lia.
Qed.

(** C4. A complete appraisal is never eligible and one in progress or
    sent always is.  A new one is eligible exactly when the clock reads a
    time from one month before the end of the cycle up to that end, both
    included; the clock and the time zone are arguments of every call.
    One month before is taken on the local calendar: the local date of the
    end with the month before in place of its month, the day of the month
    and the time of day kept, read back with the offset in force then; a
    day that the month before does not have runs on into the next month.
    For a cycle that ends on 30 June 2024 a new appraisal is eligible
    throughout 15 June 2024 and is not on 15 May 2024 nor on 1 July 2024,
    whatever the time of day of the end date and the time zone.  At UTC a
    cycle that ends with 31 March 2024 opens on 2 March and one that ends
    with 15 January 2024 opens on 15 December 2023, to the millisecond; in
    Bahrain, three hours ahead, a cycle that ends at 3 a.m. on 30 June 2024
    opens at 3 a.m. on 30 May; in New York a cycle that ends at 7 a.m. on
    30 November 2024 opens at 7 a.m. on 30 October, which is 31 days and
    one hour earlier, and one that ends at 8 a.m. on 28 March 2023 opens at
    8 a.m. on 28 February, which is one hour less than 28 days earlier. *)
Theorem shouldEnableEvaluation_gate :
  (forall LocalTZA now name endDate ts ev,
      Table.shouldEnableEvaluation LocalTZA now
        (Table.mkAppraisal COMPLETE name endDate ts ev) = false) /\
  (forall LocalTZA now name endDate ts ev,
      (forall t isUTC, - JS.msPerDay < LocalTZA t isUTC < JS.msPerDay) ->
      (Table.shouldEnableEvaluation LocalTZA now
         (Table.mkAppraisal NEW name endDate ts ev) = true <->
       Z.abs endDate <= 8640000000000000 /\
       exists start,
         Spec.one_month_before LocalTZA endDate start /\
         Z.abs start <= 8640000000000000 /\
         start <= now <= endDate)) /\
  (forall LocalTZA now name endDate ts ev,
      Table.shouldEnableEvaluation LocalTZA now
        (Table.mkAppraisal IN_PROGRESS name endDate ts ev) = true /\
      Table.shouldEnableEvaluation LocalTZA now
        (Table.mkAppraisal SENT name endDate ts ev) = true) /\
  (forall LocalTZA now name endDate ts ev,
      (forall t isUTC, - JS.msPerDay < LocalTZA t isUTC < JS.msPerDay) ->
      JS.Day endDate = Spec.civil_day 2024 5 30 ->
      (JS.Day now = Spec.civil_day 2024 5 15 ->
       Table.shouldEnableEvaluation LocalTZA now
         (Table.mkAppraisal NEW name endDate ts ev) = true) /\
      (JS.Day now = Spec.civil_day 2024 4 15 ->
       Table.shouldEnableEvaluation LocalTZA now
         (Table.mkAppraisal NEW name endDate ts ev) = false) /\
      (JS.Day now = Spec.civil_day 2024 6 1 ->
       Table.shouldEnableEvaluation LocalTZA now
         (Table.mkAppraisal NEW name endDate ts ev) = false)) /\
  (forall name ts ev,
      let gate zone endDate now :=
        Table.shouldEnableEvaluation zone now
          (Table.mkAppraisal NEW name endDate ts ev) in
      let UTC := Spec.fixed_offset 0 in
      let Bahrain := Spec.fixed_offset 10800000 in
      (gate UTC (Spec.instant 2024 2 31 0 0)
         (Spec.instant 2024 2 2 0 0 - 1) = false /\
       gate UTC (Spec.instant 2024 2 31 0 0) (Spec.instant 2024 2 2 0 0)
       = true /\
       gate UTC (Spec.instant 2024 2 31 0 0) (Spec.instant 2024 2 31 0 0)
       = true /\
       gate UTC (Spec.instant 2024 2 31 0 0)
         (Spec.instant 2024 2 31 0 0 + 1) = false) /\
      (gate UTC (Spec.instant 2024 0 15 0 0)
         (Spec.instant 2023 11 15 0 0 - 1) = false /\
       gate UTC (Spec.instant 2024 0 15 0 0) (Spec.instant 2023 11 15 0 0)
       = true) /\
      (gate Bahrain (Spec.instant 2024 5 30 3 10800000)
         (Spec.instant 2024 4 30 3 10800000 - 1) = false /\
       gate Bahrain (Spec.instant 2024 5 30 3 10800000)
         (Spec.instant 2024 4 30 3 10800000) = true /\
       gate Bahrain (Spec.instant 2024 5 30 3 10800000)
         (Spec.instant 2024 5 30 3 10800000) = true /\
       gate Bahrain (Spec.instant 2024 5 30 3 10800000)
         (Spec.instant 2024 5 30 3 10800000 + 1) = false) /\
      (gate Spec.New_York (Spec.instant 2024 10 30 7 (-18000000))
         (Spec.instant 2024 9 30 7 (-14400000) - 1) = false /\
       gate Spec.New_York (Spec.instant 2024 10 30 7 (-18000000))
         (Spec.instant 2024 9 30 7 (-14400000)) = true /\
       Spec.instant 2024 10 30 7 (-18000000)
       - Spec.instant 2024 9 30 7 (-14400000)
       = 31 * JS.msPerDay + 3600000) /\
      (gate Spec.New_York (Spec.instant 2023 2 28 8 (-14400000))
         (Spec.instant 2023 1 28 8 (-18000000) - 1) = false /\
       gate Spec.New_York (Spec.instant 2023 2 28 8 (-14400000))
         (Spec.instant 2023 1 28 8 (-18000000)) = true /\
       Spec.instant 2023 2 28 8 (-14400000)
       - Spec.instant 2023 1 28 8 (-18000000)
       = 28 * JS.msPerDay - 3600000) /\
      (Spec.instant 1970 0 1 0 0 = 0 /\
       Spec.instant 2000 1 29 0 0 = 951782400000 /\
       Spec.instant 2024 5 30 0 0 = 1719705600000)).
Proof.
  split; [|split; [|split; [|split]]].
  - reflexivity.
  - intros tz now name endDate ts ev Htz.
    rewrite shouldEnableEvaluation_new.
    split.
    + intros (Hr & Hr' & H); split; [assumption|].
      exists (window_start tz endDate); split; [|auto].
      apply window_start_one_month_before.
      now apply local_day_range.
    + intros (Hr & start & H & Hr' & H').
      apply one_month_before_unique in H; [|now apply local_day_range].
      subst start; auto.
  - split; reflexivity.
  - intros tz now name endDate ts ev Htz Hend.
    assert (E1 : Spec.civil_day 2024 5 30 = 19904) by (vm_compute; reflexivity).
    assert (E2 : Spec.civil_day 2024 5 15 = 19889) by (vm_compute; reflexivity).
    assert (E3 : Spec.civil_day 2024 4 15 = 19858) by (vm_compute; reflexivity).
    assert (E4 : Spec.civil_day 2024 6 1 = 19905) by (vm_compute; reflexivity).
    assert (E5 : JS.MakeDay 2024 5 29 = 19903) by (vm_compute; reflexivity).
    assert (E6 : JS.MakeDay 2024 6 1 = 19905) by (vm_compute; reflexivity).
    rewrite E1 in Hend; rewrite E2, E3, E4.
    apply Day_bounds in Hend.
    pose proof (month_shift_June_2024 (JS.Day (endDate + tz endDate true)))
      as Hs.
    rewrite E5, E6 in Hs.
    pose proof (Htz endDate true) as Hoff.
    assert (Hd : 19903 <= JS.Day (endDate + tz endDate true) <= 19905).
    { pose proof (proj1 (Day_bounds (endDate + tz endDate true) _) eq_refl)
        as Hb.
      unfold JS.msPerDay in *; lia. }
    specialize (Hs Hd).
    pose proof (shouldEnableEvaluation_new tz now name endDate ts ev) as Hiff.
    unfold window_start in Hiff; cbv zeta in Hiff.
    set (k := month_shift (JS.Day (endDate + tz endDate true))) in *.
    pose proof (Htz (endDate + tz endDate true + k * JS.msPerDay) false)
      as Hoff'.
    set (off' := tz (endDate + tz endDate true + k * JS.msPerDay) false) in *.
    repeat split; intros Hnow; apply Day_bounds in Hnow.
    + apply Hiff; unfold JS.msPerDay in *; lia.
    + destruct (Table.shouldEnableEvaluation _ _ _); [|reflexivity].
      pose proof (proj1 Hiff eq_refl) as H.
      unfold JS.msPerDay in *; lia.
    + destruct (Table.shouldEnableEvaluation _ _ _); [|reflexivity].
      pose proof (proj1 Hiff eq_refl) as H.
      unfold JS.msPerDay in *; lia.
  - intros name ts ev; vm_compute; repeat split; reflexivity.
Qed.

(* ================================================================== *)
(** ** Further properties of the export and of [fetchData] *)

(** X1. When the ratings of a row are the normalizer's five entries, the
    five capacity columns of the CSV row hold, in order, exactly the
    points the normalizer found: the labels it writes are the labels the
    export looks up. *)
Theorem exportRow_reads_normalizedRatings
  (a : Table.AppraisalWithDetails) (l : list BehaviorRating) :
  Table.ratings a = Route.normalizedRatings l ->
  map (fun key => Table.column key (Table.exportRow a))
    [ "Institutional Commitment "; "Collaboration & Teamwork ";
      "Professionalism "; "Client Service "; "Achieving Results " ]
  = map (fun kw => Some (Table.CellNumber (Route.find_points kw l)))
      [ "institutional"; "collaboration"; "professionalism"; "client";
        "achieving" ].
Proof.
  intros H.
  unfold Table.exportRow, Table.column; cbn [map find fst snd String.eqb
    Ascii.eqb Bool.eqb JS.optchain].
  rewrite H; unfold Route.normalizedRatings.
  generalize (Route.find_points "institutional" l)
             (Route.find_points "collaboration" l)
             (Route.find_points "professionalism" l)
             (Route.find_points "client" l)
             (Route.find_points "achieving" l).
  intros p1 p2 p3 p4 p5.
  reflexivity.
Qed.

Lemma exportRow_reads_normalizedRatings_witness :
  map (fun key =>
         Table.column key
           (Table.exportRow
              (Table.mkAppraisal SENT "A" 0 None
                 (Some (Table.mkEvaluation
                          (Some (Route.normalizedRatings
                                   [mkRating "client care" 40%float]))
                          None None None None None)))))
    [ "Institutional Commitment "; "Collaboration & Teamwork ";
      "Professionalism "; "Client Service "; "Achieving Results " ]
  = map (fun kw =>
           Some (Table.CellNumber
                   (Route.find_points kw [mkRating "client care" 40%float])))
      [ "institutional"; "collaboration"; "professionalism"; "client";
        "achieving" ].
Proof.
  apply (exportRow_reads_normalizedRatings
           (Table.mkAppraisal SENT "A" 0 None
              (Some (Table.mkEvaluation
                       (Some (Route.normalizedRatings
                                [mkRating "client care" 40%float]))
                       None None None None None)))
           [mkRating "client care" 40%float]).
  reflexivity.
Defined.

Lemma exportRow_withEval_eq (a : Table.AppraisalWithDetails) :
  Table.exportRow (Table.withEval a) = Table.exportRow a.
Proof.
  destruct a as [st name endDate ts [[r t re un co te]|]];
    [destruct r as [r|]|]; reflexivity.
Qed.

(** X2. Completing the appraisals in [fetchData] does not change the
    CSV: the export supplies the same defaults itself, row by row, so the
    HOD table (which completes) and the Dean table (which does not) export
    a given list of appraisals alike. *)
Theorem exportCSV_appraisalsWithEval :
  (forall a, Table.exportRow (Table.withEval a) = Table.exportRow a) /\
  (forall data,
      Table.exportCSV (option_map Table.appraisalsWithEval data)
      = Table.exportCSV data).
Proof.
  split; [apply exportRow_withEval_eq|].
  intros [[|a l]|]; try reflexivity.
  cbn; f_equal; f_equal; [apply exportRow_withEval_eq|].
  unfold Table.appraisalsWithEval; rewrite map_map.
  apply map_ext; intros b; apply exportRow_withEval_eq.
Qed.

(** X3. Completing twice is completing once, and a completed appraisal
    never shows a dash as its total score: the cell holds the evaluation's
    total, else the appraisal's own, else 0.00. *)
Theorem withEval_idempotent_and_scored :
  (forall a, Table.withEval (Table.withEval a) = Table.withEval a) /\
  (forall a,
      Table.totalScoreCell (Table.withEval a)
      = Table.ScoreFixed
          (JS.toFixed2
             match JS.optchain_opt (Table.evaluation a) Table.totalScore with
             | Some v => v
             | None => Spec.or_zero (Table.appraisal_totalScore a)
             end)) /\
  (forall st name endDate ev,
      JS.optchain_opt ev Table.totalScore = None ->
      Table.totalScoreCell
        (Table.withEval (Table.mkAppraisal st name endDate None ev))
      = Table.ScoreFixed (JS.FixedDigits false 0)).
Proof.
  split; [|split].
  - intros [st name endDate ts [[r t re un co te]|]]; reflexivity.
  - intros [st name endDate ts [[r [t|] re un co te]|]]; try reflexivity;
      destruct ts; reflexivity.
  - intros st name endDate [[r t re un co te]|] H; simpl in H;
      [subst t|]; reflexivity.
Qed.

(** X4. The export leaves without a file exactly when there is no data
    or the list of appraisals is empty; otherwise it hands over one row
    per appraisal, in the order of the list, so there is never a header
    without rows. *)
Theorem exportCSV_guard :
  (forall data,
      Table.exportCSV data = None <-> data = None \/ data = Some []) /\
  (forall appraisals rows,
      Table.exportCSV (Some appraisals) = Some rows ->
      rows = map Table.exportRow appraisals /\
      List.length rows = List.length appraisals /\
      rows <> []).
Proof.
  split.
  - intros [[|a l]|]; simpl; split; intros H; try reflexivity;
      try discriminate; auto.
    destruct H as [H|H]; discriminate.
  - intros appraisals rows H.
    pose proof (exportCSV_rows _ _ H) as E; subst rows.
    split; [reflexivity|]; split; [apply length_map|].
    destruct appraisals; [discriminate|discriminate].
Qed.

(* ================================================================== *)
(** ** The length of the eligibility window *)

(** Lowering the month field moves a date back by the length of the
    previous month. *)
Lemma month_shift_days_in_month (t y m d : Z) :
  -100001000 <= JS.Day t <= 100001000 ->
  Spec.is_civil_date (JS.Day t) y m d ->
  month_shift (JS.Day t)
  = - Spec.days_in_month (fst (Spec.previous_month y m))
        (snd (Spec.previous_month y m)).
Proof.
  intros Hr Hc.
  destruct (civil_date_unique _ _ _ _ _ _ _ Hc (fields_civil_date t Hr))
    as (-> & -> & ->).
  rewrite (month_shift_civil t Hr).
  rewrite civil_day_previous_month by apply MonthFromTime_range.
  destruct Hc as (_ & _ & E); lia.
Qed.

(** X5. The length of the window of a new appraisal, for a cycle end
    that JavaScript can hold together with the 33 days before it and a
    time zone whose offsets stay within a day.  On the local calendar the
    window opens as many days before the end as the month before the
    month of the end has, which is 28 to 31; that local time is read back
    with the offset in force then, so a change of the offset between the
    two dates (daylight saving time) lengthens or shortens the window by
    as much.  The action is enabled from that instant to the end instant,
    both included, and at no other time; where the offset is the same at
    both dates the window is a whole number of days, 28 to 31. *)
Theorem shouldEnableEvaluation_window
  (LocalTZA : Z -> bool -> Z) (now : Z) (name : string) (endDate : Z)
  (ts : option float) (ev : option Table.Evaluation) :
  (forall t isUTC, - JS.msPerDay < LocalTZA t isUTC < JS.msPerDay) ->
  -8640000000000000 + 33 * JS.msPerDay <= endDate <= 8640000000000000 ->
  exists y m d,
    Spec.is_civil_date (JS.Day (endDate + LocalTZA endDate true)) y m d /\
    let days :=
      Spec.days_in_month (fst (Spec.previous_month y m))
        (snd (Spec.previous_month y m)) in
    let local_start :=
      endDate + LocalTZA endDate true - days * JS.msPerDay in
    let start := local_start - LocalTZA local_start false in
    28 <= days <= 31 /\
    (Table.shouldEnableEvaluation LocalTZA now
       (Table.mkAppraisal NEW name endDate ts ev) = true <->
     start <= now <= endDate) /\
    (LocalTZA local_start false = LocalTZA endDate true ->
     start = endDate - days * JS.msPerDay).
Proof.
  intros Htz Hrange.
  assert (Hr : -100001000 <= JS.Day (endDate + LocalTZA endDate true)
               <= 100001000).
  { apply local_day_range; [assumption|unfold JS.msPerDay in *; lia]. }
  set (local := endDate + LocalTZA endDate true) in *.
  exists (JS.YearFromTime local), (JS.MonthFromTime local),
    (JS.DateFromTime local).
  pose proof (fields_civil_date local Hr) as Hc.
  split; [assumption|]; cbv zeta.
  pose proof (month_shift_days_in_month local _ _ _ Hr Hc) as Hs.
  pose proof (days_in_month_bounds
                (fst (Spec.previous_month (JS.YearFromTime local)
                        (JS.MonthFromTime local)))
                (snd (Spec.previous_month (JS.YearFromTime local)
                        (JS.MonthFromTime local)))) as Hdays.
  set (days := Spec.days_in_month _ _) in *.
  pose proof (shouldEnableEvaluation_new LocalTZA now name endDate ts ev)
    as Hiff.
  unfold window_start in Hiff; cbv zeta in Hiff; fold local in Hiff.
  rewrite Hs in Hiff.
  replace (local + - days * JS.msPerDay)
    with (local - days * JS.msPerDay) in Hiff by lia.
  pose proof (Htz endDate true) as Hoff; fold local in Hoff.
  pose proof (Htz (local - days * JS.msPerDay) false) as Hoff'.
  set (off' := LocalTZA (local - days * JS.msPerDay) false) in *.
  split; [assumption|]; split.
  - rewrite Hiff; unfold local, JS.msPerDay in *; lia.
  - intros E; unfold local; lia.
Qed.

(** In New York a cycle that ends at 8 a.m. on 31 March 2024 opens 29
    days of the calendar earlier, at 8 a.m. on 2 March, when daylight
    saving time was not yet in force: 29 days less one hour. *)
Lemma shouldEnableEvaluation_window_witness :
  let endDate := Spec.instant 2024 2 31 8 (-14400000) in
  let a := Table.mkAppraisal NEW "A" endDate None None in
  Spec.instant 2024 2 2 8 (-18000000)
  = endDate - 29 * JS.msPerDay + 3600000 /\
  Table.shouldEnableEvaluation Spec.New_York
    (Spec.instant 2024 2 2 8 (-18000000)) a = true /\
  (Table.shouldEnableEvaluation Spec.New_York
     (Spec.instant 2024 2 2 8 (-18000000) - 1) a = true ->
   False).
Proof.
  cbv zeta.
  assert (Hrange : -8640000000000000 + 33 * JS.msPerDay
                   <= Spec.instant 2024 2 31 8 (-14400000)
                   <= 8640000000000000)
    by (vm_compute; split; discriminate).
  assert (Hc : Spec.is_civil_date
                 (JS.Day (Spec.instant 2024 2 31 8 (-14400000)
                          + Spec.New_York
                              (Spec.instant 2024 2 31 8 (-14400000)) true))
                 2024 2 31)
    by (vm_compute; repeat split; discriminate).
  split; [vm_compute; reflexivity|]; split.
  - destruct (shouldEnableEvaluation_window Spec.New_York
                (Spec.instant 2024 2 2 8 (-18000000)) "A"
                (Spec.instant 2024 2 31 8 (-14400000)) None None
                New_York_bounds Hrange)
      as (y & m & d & Hc' & _ & Hiff & _).
    destruct (civil_date_unique _ _ _ _ _ _ _ Hc' Hc) as (-> & -> & ->).
    apply Hiff; vm_compute; split; discriminate.
  - intros H.
    destruct (shouldEnableEvaluation_window Spec.New_York
                (Spec.instant 2024 2 2 8 (-18000000) - 1) "A"
                (Spec.instant 2024 2 31 8 (-14400000)) None None
                New_York_bounds Hrange)
      as (y & m & d & Hc' & _ & Hiff & _).
    destruct (civil_date_unique _ _ _ _ _ _ _ Hc' Hc) as (-> & -> & ->).
    apply Hiff in H; vm_compute in H; destruct H as [H _]; apply H;
      reflexivity.
Defined.

(* ================================================================== *)
(** ** The handler of [/api/hod/appraisals] *)

Ltac destruct_GET world :=
  unfold Route.GET, Route.caller_department;
  destruct world as [ws wu wa wc]; cbn [Route.world_getSession
    Route.world_user_findUnique Route.world_appraisal_findMany
    Route.world_appraisalCycle_findMany];
  destruct ws as [session|]; [|cbn];
  [ cbn [Async.await Async.bind Async.try_catch];
    destruct (JS.truthy_string
                (JS.optchain_opt (JS.optchain_opt session Route.session_user)
                   Route.session_email)) eqn:Hemail; cbn [negb];
    [ destruct (wu (JS.nullish
                      (JS.optchain_opt
                         (JS.optchain_opt session Route.session_user)
                         Route.session_email) "")) as [[user|]|] eqn:Huser;
      cbn [Async.await Async.bind Async.try_catch Async.ret];
      [ destruct (String.eqb (Route.user_role user) "HOD") eqn:Hrole;
        cbn [negb andb];
        [ destruct (JS.truthy_int (Route.user_departmentId user)) eqn:Hdept;
          cbn [negb Async.ret Async.await Async.bind];
          [ destruct (wa (Route.whereClause
                            (JS.nullish (Route.user_departmentId user) 0) _))
              as [foundRows|] eqn:Hfind;
            cbn [Async.await Async.bind Async.try_catch Async.ret];
            [ destruct wc as [foundCycles|]; cbn | cbn ]
          | cbn ]
        | cbn ]
      | cbn | cbn ]
    | cbn ]
  | ].

(** X6. Every query for appraisals that the handler sends is scoped:
    it is sent only when the session names a user whose role is HOD and
    who has a department, and it asks for instructors of exactly that
    department, whatever the query parameters of the request are. *)
Theorem GET_queries_are_scoped (world : Route.World)
  (searchParams : list (string * string)) (clause : Route.WhereClause) :
  In (Route.appraisal_findMany clause) (fst (Route.GET world searchParams)) ->
  exists departmentId,
    Route.caller_department world = Some departmentId /\
    departmentId <> 0 /\
    clause = Route.whereClause departmentId searchParams /\
    Route.where_faculty_departmentId clause = departmentId /\
    Route.where_faculty_role clause = "INSTRUCTOR".
Proof.
  destruct_GET world; intros H;
    repeat (destruct H as [H|H]; try discriminate H); try contradiction.
  all: injection H as <-.
  all: destruct (Route.user_departmentId user) as [[|d|d]|];
    try discriminate Hdept.
  all: eexists; repeat split; discriminate.
Qed.

Lemma GET_queries_are_scoped_witness :
  exists departmentId,
    Route.caller_department
      (Route.mkWorld
         (Async.fulfilled
            (Some (Route.mkSession
                     (Some (Route.mkSessionUser (Some "hod@uob.edu"))))))
         (fun _ => Async.fulfilled (Some (Route.mkUser "HOD" (Some 3))))
         (fun _ => Async.fulfilled [])
         (Async.fulfilled []))
    = Some departmentId /\
    departmentId <> 0 /\
    Route.whereClause 3 [("status", "sent")]
    = Route.whereClause departmentId [("status", "sent")] /\
    Route.where_faculty_departmentId
      (Route.whereClause 3 [("status", "sent")]) = departmentId /\
    Route.where_faculty_role (Route.whereClause 3 [("status", "sent")])
    = "INSTRUCTOR".
Proof.
  apply (GET_queries_are_scoped
           (Route.mkWorld
              (Async.fulfilled
                 (Some (Route.mkSession
                          (Some (Route.mkSessionUser (Some "hod@uob.edu"))))))
              (fun _ => Async.fulfilled (Some (Route.mkUser "HOD" (Some 3))))
              (fun _ => Async.fulfilled [])
              (Async.fulfilled []))
           [("status", "sent")]
           (Route.whereClause 3 [("status", "sent")])).
  simpl; auto.
Defined.

(** X7. Every JSON answer of the handler is well formed: each of its
    appraisals carries an evaluation with exactly the five canonical
    capacities, in order.  A JSON answer that holds appraisals at all was
    built for a head of department from the rows the database returned
    for that department, one entry per row and in their order. *)
Theorem GET_json_is_normalized (world : Route.World)
  (searchParams : list (string * string))
  (appraisals : list Route.AppraisalWithEvaluation)
  (cycles : list AppraisalCycle) :
  snd (Route.GET world searchParams)
  = Route.NextResponse_json appraisals cycles ->
  Forall
    (fun a =>
       map capacity (Route.behaviorRatings (Route.evaluation a))
       = Spec.canonical_labels)
    appraisals /\
  (appraisals <> [] ->
   exists departmentId rows,
     Route.caller_department world = Some departmentId /\
     Route.world_appraisal_findMany world
       (Route.whereClause departmentId searchParams)
     = Async.fulfilled rows /\
     map Route.spread appraisals = rows /\
     appraisals = map Route.withEvaluation rows).
Proof.
  destruct_GET world; intros H; try discriminate H.
  - injection H as <- <-.
    destruct (Route.user_departmentId user) as [[|d|d]|];
      try discriminate Hdept.
    all: split;
      [ unfold Route.appraisalsWithEvaluation; apply Forall_map;
        apply Forall_forall; intros [i st nm ce [|e es]] _; reflexivity
      | intros _; eexists; exists foundRows; cbn [JS.nullish] in Hfind;
        repeat split; try exact Hfind;
        unfold Route.appraisalsWithEvaluation; rewrite map_map;
        apply map_id ].
  - injection H as <- <-; split; [constructor|congruence].
Qed.

Lemma GET_json_is_normalized_witness :
  Forall
    (fun a =>
       map capacity (Route.behaviorRatings (Route.evaluation a))
       = Spec.canonical_labels)
    [Route.withEvaluation (Route.mkAppraisal 7 SENT "B" 0 [])] /\
  ([Route.withEvaluation (Route.mkAppraisal 7 SENT "B" 0 [])] <> [] ->
   exists departmentId rows,
     Route.caller_department
       (Route.mkWorld
          (Async.fulfilled
             (Some (Route.mkSession
                      (Some (Route.mkSessionUser (Some "hod@uob.edu"))))))
          (fun _ => Async.fulfilled (Some (Route.mkUser "HOD" (Some 3))))
          (fun _ => Async.fulfilled [Route.mkAppraisal 7 SENT "B" 0 []])
          (Async.fulfilled []))
     = Some departmentId /\
     Async.fulfilled [Route.mkAppraisal 7 SENT "B" 0 []]
     = Async.fulfilled rows /\
     map Route.spread
       [Route.withEvaluation (Route.mkAppraisal 7 SENT "B" 0 [])] = rows /\
     [Route.withEvaluation (Route.mkAppraisal 7 SENT "B" 0 [])]
     = map Route.withEvaluation rows).
Proof.
  apply (GET_json_is_normalized
           (Route.mkWorld
              (Async.fulfilled
                 (Some (Route.mkSession
                          (Some (Route.mkSessionUser (Some "hod@uob.edu"))))))
              (fun _ => Async.fulfilled (Some (Route.mkUser "HOD" (Some 3))))
              (fun _ => Async.fulfilled [Route.mkAppraisal 7 SENT "B" 0 []])
              (Async.fulfilled []))
           [] [Route.withEvaluation (Route.mkAppraisal 7 SENT "B" 0 [])] []).
  reflexivity.
Defined.

(** X8. The handler answers 500 exactly when one of the operations it
    awaited threw, and it awaits nothing after the one that threw.  Its
    other answers are "Unauthorized" with status 401 and the JSON object;
    a head of department with a department is never answered 401. *)
Theorem GET_failures (world : Route.World)
  (searchParams : list (string * string)) :
  (snd (Route.GET world searchParams)
   = Route.NextResponse "Internal Server Error" 500
   <-> existsb (Route.rejects world) (fst (Route.GET world searchParams))
       = true) /\
  Forall (fun call => Route.rejects world call = false)
    (removelast (fst (Route.GET world searchParams))) /\
  (snd (Route.GET world searchParams)
   = Route.NextResponse "Internal Server Error" 500
   \/ snd (Route.GET world searchParams)
      = Route.NextResponse "Unauthorized" 401
   \/ exists appraisals cycles,
        snd (Route.GET world searchParams)
        = Route.NextResponse_json appraisals cycles) /\
  (Route.caller_department world <> None ->
   snd (Route.GET world searchParams)
   <> Route.NextResponse "Unauthorized" 401).
Proof.
  destruct_GET world;
    cbn [fst snd existsb removelast Route.rejects orb
         Route.world_getSession Route.world_user_findUnique
         Route.world_appraisal_findMany Route.world_appraisalCycle_findMany
         app];
    rewrite ?Huser, ?Hfind; cbn [orb];
    (split; [split; intros H; (discriminate H || reflexivity)|]);
    (split; [repeat constructor; cbn [Route.rejects
         Route.world_getSession Route.world_user_findUnique
         Route.world_appraisal_findMany Route.world_appraisalCycle_findMany];
         rewrite ?Huser, ?Hfind; reflexivity|]);
    (split; [eauto|]); intros H; try congruence; try discriminate.
Qed.

(* ================================================================== *)
(** ** [fetchData] and the filters *)





Lemma withEval_complete (a : Table.AppraisalWithDetails) :
  exists r t re un co te,
    Table.evaluation (Table.withEval a)
    = Some (Table.mkEvaluation (Some r) (Some t) (Some re) (Some un)
              (Some co) (Some te)).
Proof. unfold Table.withEval; cbn; eauto 10. Qed.

(** X9. [fetchData] of the HOD table always ends with the spinner off.
    After an answer that is [ok] no error is shown and the appraisals are
    those of the answer, in order, each completed: every field of every
    evaluation is present, so no row shows a dash as its total, and the
    CSV rows are those of the answer.  After any failure the error is the
    failure's message, while the data and the filters stay what they
    were. *)
Theorem fetchData_end (filters : Table.Filters)
  (outcome : Table.FetchOutcome) (state : Table.State) :
  Table.loading (Table.fetchData filters outcome state) = false /\
  match outcome with
  | Table.fetch_ok result =>
      Table.error (Table.fetchData filters outcome state) = None /\
      exists shown,
        Table.data (Table.fetchData filters outcome state)
        = Some (Table.mkData shown (Table.data_cycles result)) /\
        List.length shown = List.length (Table.data_appraisals result) /\
        map Table.faculty_name shown
        = map Table.faculty_name (Table.data_appraisals result) /\
        map Table.exportRow shown
        = map Table.exportRow (Table.data_appraisals result) /\
        Forall
          (fun a =>
             (exists r t re un co te,
                 Table.evaluation a
                 = Some (Table.mkEvaluation (Some r) (Some t) (Some re)
                           (Some un) (Some co) (Some te))) /\
             Table.totalScoreCell a <> Table.ScoreDash)
          shown
  | _ =>
      Table.error (Table.fetchData filters outcome state)
      = Some (Table.errorMessage outcome) /\
      Table.data (Table.fetchData filters outcome state) = Table.data state /\
      Table.filters (Table.fetchData filters outcome state)
      = Table.filters state
  end.
Proof.
  split; [destruct outcome; reflexivity|].
  destruct outcome as [m| |result]; cbn; auto.
  split; [reflexivity|].
  eexists; split; [reflexivity|].
  unfold Table.appraisalsWithEval.
  rewrite length_map, !map_map.
  repeat split.
  - apply map_ext; intros a; apply exportRow_withEval_eq.
  - apply Forall_map, Forall_forall; intros a _; split.
    + apply withEval_complete.
    + destruct (withEval_complete a) as (r & t & re & un & co & te & E).
      unfold Table.totalScoreCell; rewrite E; discriminate.
Qed.

(** X10. In the Dean table an error message outlives a later success:
    [fetchData] there never clears the error, so after a failed request
    and then a good one the message of the failure is still shown next to
    the new data.  The HOD table clears it. *)
Theorem deanFetchData_keeps_error :
  (forall filters result state,
      Table.error (Table.deanFetchData filters (Table.fetch_ok result) state)
      = Table.error state) /\
  (forall filters1 filters2 message result state,
      let failed :=
        Table.deanFetchData filters1 (Table.fetch_threw message) state in
      let after :=
        Table.deanFetchData filters2 (Table.fetch_ok result) failed in
      Table.error after = Some (JS.nullish message "Unknown error") /\
      Table.data after = Some result /\
      Table.loading after = false) /\
  (forall filters1 filters2 message result state,
      Table.error
        (Table.fetchData filters2 (Table.fetch_ok result)
           (Table.fetchData filters1 (Table.fetch_threw message) state))
      = None).
Proof. repeat split. Qed.


(* ================================================================== *)
(** ** From the filters to the query *)









Lemma is_word_char_Canonicalize (c : ascii) :
  JS.is_word_char (JS.Canonicalize c) = JS.is_word_char c.
Proof. destruct c as [[] [] [] [] [] [] [] []]; reflexivity. Qed.

Lemma is_lower_Canonicalize (c : ascii) :
  Spec.is_lower (JS.Canonicalize c) = false.
Proof. destruct c as [[] [] [] [] [] [] [] []]; reflexivity. Qed.

Lemma upper_word_starts_capital (previous_is_word : bool) (s : string) :
  Spec.words_start_capital previous_is_word
    (JS.upper_word_starts previous_is_word s).
Proof.
  revert previous_is_word; induction s as [|c s IH]; intros prev; cbn.
  - exact I.
  - destruct (JS.is_word_char c) eqn:Hc, prev; cbn [andb negb];
      rewrite ?is_word_char_Canonicalize, ?Hc; split; try apply IH;
      intros; try congruence.
    apply is_lower_Canonicalize.
Qed.

Lemma upper_word_starts_length (previous_is_word : bool) (s : string) :
  String.length (JS.upper_word_starts previous_is_word s) = String.length s.
Proof.
  revert previous_is_word; induction s as [|c s IH]; intros prev; cbn;
    [reflexivity|now rewrite IH].
Qed.

Lemma substring_all (s : string) : substring 0 (String.length s) s = s.
Proof. induction s as [|c s IH]; cbn; [reflexivity|now rewrite IH]. Qed.

Lemma replace_first_char_length (a b : ascii) (s : string) :
  String.length (JS.replace_first (String a "") (String b "") s)
  = String.length s.
Proof.
  induction s as [|c s IH]; [reflexivity|].
  cbn [JS.replace_first String.prefix].
  destruct (ascii_dec a c) as [E|E].
  - replace (String.prefix "" s) with true by (destruct s; reflexivity).
    cbn [String.length Nat.sub append substring].
    now rewrite Nat.sub_0_r, substring_all.
  - cbn [String.length]; now rewrite IH.
Qed.

(** X13. The label of a status in the status select: its first
    underscore becomes a space and then every word starts with a capital;
    the label is as long as the value.  The four statuses read "New", "In
    Progress", "Complete" and "Sent", in this order. *)
Theorem statusLabel_titles :
  map Table.statusLabel Table.EvaluationStatus_values
  = [ "New"; "In Progress"; "Complete"; "Sent" ] /\
  (forall s, String.length (Table.statusLabel s) = String.length s) /\
  (forall s, Spec.words_start_capital false (Table.statusLabel s)) /\
  Table.statusLabel "not_yet_sent" = "Not Yet_sent".
Proof.
  split; [reflexivity|split; [|split; [|reflexivity]]].
  - intros s; unfold Table.statusLabel.
    now rewrite upper_word_starts_length, replace_first_char_length.
  - intros s; apply upper_word_starts_capital.
Qed.

(* ================================================================== *)
(** ** Resetting a password *)

Ltac destruct_POST world :=
  unfold ResetPassword.POST;
  destruct world as [wj wu wh wp];
  cbn [ResetPassword.world_req_json ResetPassword.world_user_findUnique
       ResetPassword.world_bcrypt_hash ResetPassword.world_user_update];
  destruct wj as [[|email0 newPassword0]|];
  cbn [Async.await Async.bind Async.try_catch Async.ret Async.throw app];
  [ | destruct (wu email0) as [[user|]|] eqn:Huser;
      cbn [Async.await Async.bind Async.try_catch Async.ret];
      [ destruct (wh newPassword0 10) as [hashed|] eqn:Hhash;
        cbn [Async.await Async.bind Async.try_catch Async.ret];
        [ destruct (wp email0 hashed) as [[]|] eqn:Hupdate;
          cbn [Async.await Async.bind Async.try_catch Async.ret app]
        | ]
      | | ]
  | ].

Lemma POST_update_origin (world : ResetPassword.World) :
  forall email passwordHash,
    In (ResetPassword.user_update email passwordHash)
      (fst (ResetPassword.POST world)) ->
    exists newPassword user,
      ResetPassword.world_req_json world
      = Async.fulfilled (ResetPassword.mkBody email newPassword) /\
      ResetPassword.world_user_findUnique world email
      = Async.fulfilled (Some user) /\
      ResetPassword.world_bcrypt_hash world newPassword 10
      = Async.fulfilled passwordHash.
Proof.
  destruct_POST world;
    cbn [fst snd ResetPassword.world_req_json
         ResetPassword.world_user_findUnique
         ResetPassword.world_bcrypt_hash ResetPassword.world_user_update];
    intros email passwordHash H;
    repeat (destruct H as [H|H]; try discriminate H); try contradiction;
    injection H as <- <-; eauto 10.
Qed.

(** The three answers of the handler. *)
Lemma POST_answers (world : ResetPassword.World) :
  snd (ResetPassword.POST world)
  = ResetPassword.mkResponse None (Some "Password updated successfully") 200
  \/ snd (ResetPassword.POST world)
     = ResetPassword.mkResponse (Some "Email not found") None 404
  \/ snd (ResetPassword.POST world)
     = ResetPassword.mkResponse (Some "Server error") None 500.
Proof. destruct_POST world; cbn [snd]; auto. Qed.

(** X14. The handler changes a password only for an email that the user
    table knows, and then to the hash that bcrypt gave, at cost 10, for
    the password of the request: it awaits the update last, after the
    lookup found a user.  It answers 200 exactly when that update went
    through, 404 exactly when the lookup found nobody (and then neither
    hashes nor updates), and 500 exactly when an awaited operation threw
    or the body of the request was [null], which cannot be destructured:
    then nothing is awaited after the body.  Nothing else is asked of the
    request: no session, and no rule on the password. *)
Theorem POST_updates_known_users_only (world : ResetPassword.World) :
  (forall email passwordHash,
      In (ResetPassword.user_update email passwordHash)
        (fst (ResetPassword.POST world)) ->
      exists newPassword user,
        ResetPassword.world_req_json world
        = Async.fulfilled (ResetPassword.mkBody email newPassword) /\
        ResetPassword.world_user_findUnique world email
        = Async.fulfilled (Some user) /\
        ResetPassword.world_bcrypt_hash world newPassword 10
        = Async.fulfilled passwordHash) /\
  (ResetPassword.response_status (snd (ResetPassword.POST world)) = 200 <->
   exists email newPassword passwordHash,
     ResetPassword.world_req_json world
     = Async.fulfilled (ResetPassword.mkBody email newPassword) /\
     fst (ResetPassword.POST world)
     = [ ResetPassword.req_json; ResetPassword.user_findUnique email;
         ResetPassword.bcrypt_hash newPassword 10;
         ResetPassword.user_update email passwordHash ] /\
     ResetPassword.world_user_update world email passwordHash
     = Async.fulfilled tt) /\
  (ResetPassword.response_status (snd (ResetPassword.POST world)) = 404 <->
   exists email newPassword,
     ResetPassword.world_req_json world
     = Async.fulfilled (ResetPassword.mkBody email newPassword) /\
     ResetPassword.world_user_findUnique world email
     = Async.fulfilled None /\
     fst (ResetPassword.POST world)
     = [ ResetPassword.req_json; ResetPassword.user_findUnique email ]) /\
  (ResetPassword.response_status (snd (ResetPassword.POST world)) = 500 <->
   existsb (ResetPassword.rejects world) (fst (ResetPassword.POST world))
   = true
   \/ ResetPassword.world_req_json world
      = Async.fulfilled ResetPassword.json_null) /\
  (ResetPassword.world_req_json world
   = Async.fulfilled ResetPassword.json_null ->
   ResetPassword.POST world
   = ([ResetPassword.req_json],
      ResetPassword.mkResponse (Some "Server error") None 500) /\
   existsb (ResetPassword.rejects world) (fst (ResetPassword.POST world))
   = false) /\
  (ResetPassword.response_status (snd (ResetPassword.POST world)) = 200
   \/ ResetPassword.response_status (snd (ResetPassword.POST world)) = 404
   \/ ResetPassword.response_status (snd (ResetPassword.POST world)) = 500).
Proof.
  destruct_POST world;
    cbn [fst snd ResetPassword.response_status
         ResetPassword.world_req_json ResetPassword.world_user_findUnique
         ResetPassword.world_bcrypt_hash ResetPassword.world_user_update].
  all: split;
    [ intros email passwordHash H;
      repeat (destruct H as [H|H]; try discriminate H); try contradiction;
      injection H as <- <-; eauto 10 | ].
  all: split;
    [ split;
      [ intros H;
        first [ discriminate H
              | do 3 eexists; split; [reflexivity|];
                split; [reflexivity|exact Hupdate] ]
      | intros (email & newPassword & passwordHash & Hb & H & H');
        cbn [app] in H;
        first [ reflexivity
              | discriminate Hb
              | discriminate H
              | inversion Hb; inversion H; subst; congruence ] ] | ].
  all: split;
    [ split;
      [ intros H;
        first [ discriminate H
              | do 2 eexists; repeat split; first [reflexivity|eassumption] ]
      | intros (email & newPassword & H1 & H2 & H3); cbn [app] in H3;
        first [ reflexivity
              | discriminate H1
              | discriminate H3
              | inversion H1; subst; congruence ] ] | ].
  all: split;
    [ cbn [app existsb ResetPassword.rejects ResetPassword.world_req_json
           ResetPassword.world_user_findUnique
           ResetPassword.world_bcrypt_hash ResetPassword.world_user_update];
      rewrite ?Huser, ?Hhash, ?Hupdate; cbn [orb];
      split;
      [ intros H; first [ discriminate H | right; reflexivity
                        | left; reflexivity ]
      | intros [H|H]; first [ reflexivity | discriminate H ] ] | ].
  all: split;
    [ intros H; first [ discriminate H | split; reflexivity ] | ].
  all: auto.
Qed.

(** X15. The dialog in front of the route.  Two passwords that differ
    are refused first, then a password of fewer than six UTF-16 code
    units, each with its message and without any request.  So every
    password change that the dialog causes is for the email typed, with a
    password that was typed twice and has at least six code units, hashed
    at cost 10.  After a request the dialog is no longer loading and
    shows: success when the handler answered 200, "Email not found" when
    it answered 404, "Server error" when it answered 500. *)
Theorem submit_through_dialog (world : ResetPassword.World)
  (state : ResetPassword.ModalState) :
  (ResetPassword.newPassword state <> ResetPassword.confirmPassword state ->
   ResetPassword.submit world state
   = ([], ResetPassword.mkModal (ResetPassword.email state)
            (ResetPassword.newPassword state)
            (ResetPassword.confirmPassword state)
            (ResetPassword.isLoading state) "Passwords do not match"
            (ResetPassword.success state))) /\
  (ResetPassword.newPassword state = ResetPassword.confirmPassword state ->
   (JS.String_length (ResetPassword.newPassword state) < 6)%nat ->
   ResetPassword.submit world state
   = ([], ResetPassword.mkModal (ResetPassword.email state)
            (ResetPassword.newPassword state)
            (ResetPassword.confirmPassword state)
            (ResetPassword.isLoading state)
            "Password must be at least 6 characters long"
            (ResetPassword.success state))) /\
  (forall email passwordHash,
      In (ResetPassword.user_update email passwordHash)
        (fst (ResetPassword.submit world state)) ->
      email = Some (ResetPassword.email state) /\
      ResetPassword.newPassword state = ResetPassword.confirmPassword state /\
      (6 <= JS.String_length (ResetPassword.newPassword state))%nat /\
      ResetPassword.world_bcrypt_hash world
        (Some (ResetPassword.newPassword state)) 10
      = Async.fulfilled passwordHash) /\
  (ResetPassword.newPassword state = ResetPassword.confirmPassword state ->
   (6 <= JS.String_length (ResetPassword.newPassword state))%nat ->
   let served :=
     ResetPassword.POST
       (ResetPassword.mkWorld
          (Async.fulfilled
             (ResetPassword.mkBody (Some (ResetPassword.email state))
                (Some (ResetPassword.newPassword state))))
          (ResetPassword.world_user_findUnique world)
          (ResetPassword.world_bcrypt_hash world)
          (ResetPassword.world_user_update world)) in
   let shown := snd (ResetPassword.submit world state) in
   fst (ResetPassword.submit world state) = fst served /\
   ResetPassword.isLoading shown = false /\
   (ResetPassword.response_status (snd served) = 200 ->
    ResetPassword.success shown = true /\ ResetPassword.error shown = "") /\
   (ResetPassword.response_status (snd served) = 404 ->
    ResetPassword.success shown = ResetPassword.success state /\
    ResetPassword.error shown = "Email not found") /\
   (ResetPassword.response_status (snd served) = 500 ->
    ResetPassword.success shown = ResetPassword.success state /\
    ResetPassword.error shown = "Server error")).
Proof.
  destruct state as [em pw cp ld er su];
    cbn [ResetPassword.email ResetPassword.newPassword
         ResetPassword.confirmPassword ResetPassword.isLoading
         ResetPassword.error ResetPassword.success].
  unfold ResetPassword.submit, ResetPassword.handleSubmit;
    cbn [ResetPassword.email ResetPassword.newPassword
         ResetPassword.confirmPassword ResetPassword.isLoading
         ResetPassword.error ResetPassword.success].
  destruct (String.eqb_spec pw cp) as [Heq|Hne]; cbn [negb].
  - destruct (Nat.ltb_spec (JS.String_length pw) 6) as [Hlen|Hlen];
      cbn [fst snd].
    + repeat split; try congruence; try lia; try contradiction.
    + split; [congruence|]; split; [lia|]; split.
      * intros email passwordHash H.
        destruct (POST_update_origin _ _ _ H)
          as (password & user & Hb & _ & Hh).
        cbn in Hb; injection Hb as <- <-; cbn in Hh.
        repeat split; assumption.
      * intros _ _; cbv zeta.
        split; [reflexivity|].
        match goal with
        | |- context [ResetPassword.POST ?w] =>
            destruct (POST_answers w) as [E|[E|E]]; rewrite E
        end; cbn; repeat split; intros; congruence.
  - cbn [fst snd]; repeat split; try congruence; try contradiction.
Qed.

(* ================================================================== *)
(** ** The achievements PDF *)

Lemma body_or_width {A : Type} (collection : option (list A))
  (row : A -> list Achievements.Cell) (placeholder : list Achievements.Cell)
  (n : nat) :
  (forall a, List.length (row a) = n) ->
  List.length placeholder = n ->
  Forall (fun r => List.length r = n)
    (Achievements.body_or collection row placeholder).
Proof.
  intros Hrow Hp; destruct collection as [records|]; cbn.
  - apply Forall_map, Forall_forall; auto.
  - auto.
Qed.

(** X16. The PDF always has the same six tables, in the same order, and
    in every table each body row has exactly as many cells as the head has
    columns, whatever the appraisal holds; this is so for the HOD and the
    Dean component, which print the same tables. *)
Theorem printAchievements_tables (appraisal : Achievements.Appraisal) :
  map Achievements.table_title
    (Achievements.document_tables (Achievements.printAchievements appraisal))
  = [ "Awards"; "Courses"; "Research Activities"; "Scientific Activities";
      "Community Services"; "University Services" ] /\
  map (fun t => List.length (Achievements.table_head t))
    (Achievements.document_tables (Achievements.printAchievements appraisal))
  = [4; 8; 6; 6; 5; 5]%nat /\
  Forall
    (fun t =>
       Forall
         (fun row =>
            List.length row = List.length (Achievements.table_head t))
         (Achievements.table_body t))
    (Achievements.document_tables (Achievements.printAchievements appraisal))
  /\
  Achievements.document_tables (Achievements.deanPrintAchievements appraisal)
  = Achievements.document_tables (Achievements.printAchievements appraisal).
Proof.
  split; [reflexivity|split; [reflexivity|split; [|reflexivity]]].
  cbn [Achievements.printAchievements Achievements.document_tables
       Achievements.the_tables].
  repeat (apply Forall_cons;
          [ cbn [Achievements.table_body Achievements.table_head];
            apply body_or_width; [intros a|]; reflexivity | ]).
  constructor.
Qed.

(** X17. The row "No records" stands for a collection that is missing,
    not for one that is empty: each table has one body row per record of
    its collection, in order, so an empty collection gives a table without
    any row, and only a missing collection gives the single row "No
    records". *)
Theorem printAchievements_no_records :
  (forall appraisal,
      map (fun t => List.length (Achievements.table_body t))
        (Achievements.document_tables
           (Achievements.printAchievements appraisal))
      = [ match Achievements.awards appraisal with
          | Some l => List.length l | None => 1%nat end;
          match Achievements.courses appraisal with
          | Some l => List.length l | None => 1%nat end;
          match Achievements.researchActivities appraisal with
          | Some l => List.length l | None => 1%nat end;
          match Achievements.scientificActivities appraisal with
          | Some l => List.length l | None => 1%nat end;
          match Achievements.communityServices appraisal with
          | Some l => List.length l | None => 1%nat end;
          match Achievements.universityServices appraisal with
          | Some l => List.length l | None => 1%nat end ]) /\
  (forall name department year,
      map Achievements.table_body
        (Achievements.document_tables
           (Achievements.printAchievements
              (Achievements.mkAppraisal name department year (Some [])
                 (Some []) (Some []) (Some []) (Some []) (Some []))))
      = repeat [] 6) /\
  (forall name department year,
      map (fun t => map (hd (Achievements.text "")) (Achievements.table_body t))
        (Achievements.document_tables
           (Achievements.printAchievements
              (Achievements.mkAppraisal name department year None None None
                 None None None)))
      = repeat [Achievements.text "No records"] 6) /\
  (forall appraisal records,
      Achievements.awards appraisal = Some records ->
      map (hd (Achievements.text ""))
        (Achievements.table_body
           (hd (Achievements.mkTable "" [] [])
              (Achievements.document_tables
                 (Achievements.printAchievements appraisal))))
      = map (fun a => Achievements.text (Achievements.award_name a)) records).
Proof.
  split; [|split; [|split]].
  - intros [name department year [a|] [c|] [r|] [s|] [cs|] [us|]];
      cbn; rewrite ?length_map; reflexivity.
  - reflexivity.
  - reflexivity.
  - intros appraisal records H; cbn; rewrite H; cbn.
    rewrite map_map; reflexivity.
Qed.

(** X18. A text that may be missing is printed as a dash when it is
    missing or empty, so no such cell is ever empty.  The line of the
    department differs between the two components when the name of the
    department is the empty string: the HOD component prints a dash, the
    Dean component prints nothing after the colon. *)
Theorem or_dash_never_empty :
  (forall x,
      exists s, Achievements.or_dash x = Achievements.text s /\ s <> "") /\
  (forall x,
      Achievements.or_dash x = Achievements.text "-" <->
      x = None \/ x = Some "" \/ x = Some "-") /\
  (forall name year a c r s cs us,
      nth 1
        (Achievements.document_lines
           (Achievements.printAchievements
              (Achievements.mkAppraisal name (Some "") year a c r s cs us)))
        "" = "Department: -" /\
      nth 1
        (Achievements.document_lines
           (Achievements.deanPrintAchievements
              (Achievements.mkAppraisal name (Some "") year a c r s cs us)))
        "" = "Department: ").
Proof.
  split; [|split].
  - intros [[|c s]|]; cbn; eexists; split; try reflexivity; discriminate.
  - intros [[|c s]|]; cbn; (split; [intros H|intros [H|[H|H]]]);
      try discriminate H; auto; injection H as -> ->; auto.
  - intros; split; reflexivity.
Qed.
